(** * Smart-Contract-Analyzer: the orchestration logic of [src/App.tsx] and
      [src/services/apiService.ts], embedded and verified.

    The program is glue code around two external services (the Etherscan
    explorer and the Gemini model).  It is embedded as follows.

    - JavaScript strings are sequences of UTF-16 code units, [list N].
    - Values of type [any] (parsed JSON) are the inductive [JSValue].
    - An asynchronous function is a computation in the monad [Run]: it
      emits a trace of [Event]s (React state updates, network requests,
      file reads, console output) and either returns or throws.
    - Everything the program cannot decide by itself is read from a
      [World]: the environment variable, the replies of the two services,
      and the two engine-defined renderings the program relies on. *)

From Stdlib Require Import List NArith ZArith QArith Qpower Bool String Ascii
  Lia DecimalString.
Import ListNotations.
Open Scope N_scope.
Open Scope list_scope.

(* ================================================================== *)
(** * JavaScript strings *)
(* ================================================================== *)

(** A string is the sequence of its UTF-16 code units. *)
Definition jsstring := list N.

(** A literal of the source, written as a Rocq string. *)
Definition js (s : string) : jsstring :=
  map N_of_ascii (list_ascii_of_string s).

(** The line feed of the template literals. *)
Definition LF : jsstring := [10].

Module Str.

(** [a === b] on two strings. *)
Fixpoint eqb (a b : jsstring) : bool :=
  match a, b with
  | [], [] => true
  | x :: a', y :: b' => (x =? y) && eqb a' b'
  | _, _ => false
  end.

(** [s.startsWith(p)] *)
Fixpoint startsWith (s p : jsstring) {struct p} : bool :=
  match p, s with
  | [], _ => true
  | y :: p', x :: s' => (x =? y) && startsWith s' p'
  | _ :: _, [] => false
  end.

(** [s.endsWith(p)] *)
Definition endsWith (s p : jsstring) : bool :=
  startsWith (rev s) (rev p).

(** [s.split(sep)] for a separator of one code unit.  The result is
    never empty: a string without the separator gives itself. *)
Fixpoint split (sep : N) (s : jsstring) : list jsstring :=
  match s with
  | [] => [[]]
  | x :: s' =>
      if x =? sep then [] :: split sep s'
      else match split sep s' with
           | piece :: pieces => (x :: piece) :: pieces
           | [] => [[x]]
           end
  end.

(** WhiteSpace and LineTerminator of ECMAScript: what [trim] strips. *)
Definition isWhiteSpace (c : N) : bool :=
  ((9 <=? c) && (c <=? 13)) || (c =? 32) || (c =? 160) || (c =? 5760)
  || ((8192 <=? c) && (c <=? 8202)) || (c =? 8232) || (c =? 8233)
  || (c =? 8239) || (c =? 8287) || (c =? 12288) || (c =? 65279).

Fixpoint trimStart (s : jsstring) : jsstring :=
  match s with
  | c :: s' => if isWhiteSpace c then trimStart s' else s
  | [] => []
  end.

(** [s.trim()] *)
Definition trim (s : jsstring) : jsstring :=
  rev (trimStart (rev (trimStart s))).

(** The lower-case mapping of one code unit.  It is the Unicode simple
    mapping on the Latin-1 range (A-Z, and U+00C0..U+00DE but the
    multiplication sign U+00D7); the case tables beyond U+00FF are not
    embedded and those code units are left as they are.  No character
    outside ASCII lower-cases to a character of [.txt], [.md], [.pdf]
    or [.docx], so the suffix tests of the program do not see the
    difference. *)
Definition lowerUnit (c : N) : N :=
  if ((65 <=? c) && (c <=? 90))
     || ((192 <=? c) && (c <=? 222) && negb (c =? 215))
  then c + 32 else c.

(** [s.toLowerCase()] *)
Definition toLowerCase (s : jsstring) : jsstring := map lowerUnit s.

(** [s || d]: the empty string is falsy. *)
Definition orElse (s d : jsstring) : jsstring :=
  match s with
  | [] => d
  | _ :: _ => s
  end.

(** Decimal digits of a non-negative integer, most significant first,
    as [Number::toString] prints an integer below 10^21. *)
Definition ofN (n : N) : jsstring :=
  js (DecimalString.NilZero.string_of_uint (N.to_uint n)).

End Str.

(* ================================================================== *)
(** * Regular expressions *)
(* ================================================================== *)

(** The fragment of regular expressions the program uses: characters,
    character classes, sequences and counted repetition.  Every
    expression of the fragment matches at most one prefix of its input,
    so matching is a function that returns the rest of the input. *)
Module Regex.

Inductive t :=
| Char (c : N)                      (* a literal character *)
| Class (ranges : list (N * N))     (* [a-fA-F0-9] *)
| Seq (r1 r2 : t)                   (* r1 r2 *)
| Repeat (n : nat) (r : t).         (* r{n} *)

Definition inRanges (ranges : list (N * N)) (c : N) : bool :=
  existsb (fun '(lo, hi) => (lo <=? c) && (c <=? hi)) ranges.

Fixpoint iter (n : nat) (m : jsstring -> option jsstring) (s : jsstring)
  : option jsstring :=
  match n with
  | O => Some s
  | S n' => match m s with Some s' => iter n' m s' | None => None end
  end.

(** [consume r s] is the input left after [r] matched a prefix of [s]. *)
Fixpoint consume (r : t) (s : jsstring) : option jsstring :=
  match r with
  | Char c =>
      match s with x :: s' => if x =? c then Some s' else None | [] => None end
  | Class ranges =>
      match s with
      | x :: s' => if inRanges ranges x then Some s' else None
      | [] => None
      end
  | Seq r1 r2 =>
      match consume r1 s with Some s' => consume r2 s' | None => None end
  | Repeat n r' => iter n (consume r') s
  end.

(** [/^r$/.test(s)]: without the [m] flag the two anchors are the two
    ends of the input. *)
Definition test (r : t) (s : jsstring) : bool :=
  match consume r s with Some [] => true | _ => false end.

End Regex.

(* ================================================================== *)
(** * JavaScript values *)
(* ================================================================== *)

(** A number, as a JSON literal denotes it: [(-1)^negative * digits *
    10^exp10].  The value is kept exact; its rounding to a double is
    left to the two places that observe a number: [roundsToZero] below
    and [Number_toString] of the [World]. *)
Record JSNumber := mkNumber {
  negative : bool;
  digits : N;
  exp10 : Z
}.

(** The literal rounds to [+0] or [-0]: it is zero, or at most half the
    least positive double, 2^-1075. *)
Definition roundsToZero (n : JSNumber) : bool :=
  (digits n =? 0)
  || ((exp10 n <? 0)%Z
      && (digits n * 2 ^ 1075 <=? 10 ^ Z.to_N (- exp10 n))).

(** What [JSON.parse] and [response.json()] produce, and [undefined]. *)
#[warnings="-register-all"]
Inductive JSValue :=
| JUndefined
| JNull
| JBool (b : bool)
| JNumber (n : JSNumber)
| JString (s : jsstring)
| JArray (elements : list JSValue)
| JObject (properties : list (jsstring * JSValue)).

(** What a function throws, or a promise rejects with.  The handler of
    [handleAnalyze] tells only [e instanceof Error] from the rest. *)
Inductive Thrown :=
| Error (message : jsstring)    (* new Error(message), or a subclass *)
| NotAnError.                   (* any other rejection value *)

Inductive Result (A : Type) :=
| Returned (a : A)
| Threw (e : Thrown).
Arguments Returned {A} a.
Arguments Threw {A} e.

Module JS.

(** ToBoolean *)
Definition truthy (v : JSValue) : bool :=
  match v with
  | JUndefined | JNull => false
  | JBool b => b
  | JNumber n => negb (roundsToZero n)
  | JString s => match s with [] => false | _ => true end
  | JArray _ | JObject _ => true
  end.

(** [v === s] for a string [s]. *)
Definition isString (v : JSValue) (s : jsstring) : bool :=
  match v with JString t => Str.eqb t s | _ => false end.

(** [v === undefined] *)
Definition isUndefined (v : JSValue) : bool :=
  match v with JUndefined => true | _ => false end.

(** [Array.isArray(v)] *)
Definition isArray (v : JSValue) : bool :=
  match v with JArray _ => true | _ => false end.

(** The own property [p] of an object built by [JSON.parse]. *)
Fixpoint lookup (p : jsstring) (properties : list (jsstring * JSValue))
  : option JSValue :=
  match properties with
  | [] => None
  | (k, v) :: rest => if Str.eqb k p then Some v else lookup p rest
  end.

(** [CreateDataProperty]: a repeated key keeps its place and takes the
    later value. *)
Fixpoint setProperty (p : jsstring) (v : JSValue)
    (properties : list (jsstring * JSValue)) : list (jsstring * JSValue) :=
  match properties with
  | [] => [(p, v)]
  | (k, u) :: rest =>
      if Str.eqb k p then (k, v) :: rest
      else (k, u) :: setProperty p v rest
  end.

(** [v.p] for the three names the program reads, [status], [result] and
    [SourceCode], which no prototype defines: reading them from [null]
    or [undefined] throws a TypeError whose message is the engine's,
    an object gives its own property, and any other value gives
    [undefined]. *)
Definition Get (typeErrorMessage : JSValue -> jsstring -> jsstring)
    (v : JSValue) (p : jsstring) : Result JSValue :=
  match v with
  | JUndefined | JNull => Threw (Error (typeErrorMessage v p))
  | JObject properties =>
      match lookup p properties with
      | Some u => Returned u
      | None => Returned JUndefined
      end
  | _ => Returned JUndefined
  end.

(** [a.length] and [a[0]] of an array. *)
Definition length (v : JSValue) : nat :=
  match v with JArray elements => List.length elements | _ => O end.

Definition first (v : JSValue) : JSValue :=
  match v with
  | JArray (x :: _) => x
  | _ => JUndefined
  end.

(** ToString, as a template literal applies it to [${v}].  An array is
    joined with commas, [null] and [undefined] elements printing as
    nothing. *)
Fixpoint ToString (numberToString : JSNumber -> jsstring) (v : JSValue)
  : jsstring :=
  match v with
  | JUndefined => js "undefined"
  | JNull => js "null"
  | JBool true => js "true"
  | JBool false => js "false"
  | JNumber n => numberToString n
  | JString s => s
  | JObject _ => js "[object Object]"
  | JArray elements =>
      (fix join (l : list JSValue) : jsstring :=
         match l with
         | [] => []
         | x :: rest =>
             let shown :=
               match x with
               | JUndefined | JNull => []
               | _ => ToString numberToString x
               end in
             match rest with
             | [] => shown
             | _ :: _ => shown ++ js "," ++ join rest
             end
         end) elements
  end.

End JS.

(* ================================================================== *)
(** * JSON.parse *)
(* ================================================================== *)

(** [JSON.parse] in two passes over the text, both one symbol at a time:
    a lexer (a finite transducer from code units to tokens) and a
    push-down recogniser that builds the value. *)
Module JSON.

Inductive Token :=
| TLBrace | TRBrace | TLBracket | TRBracket | TColon | TComma
| TString (s : jsstring)
| TNumber (n : JSNumber)
| TTrue | TFalse | TNull.

(** Where the lexer stands inside a number literal: an optional minus,
    then a zero or a digit string without a leading zero, then an
    optional fraction (a point and digits), then an optional exponent
    (e or E, an optional sign, digits). *)
Inductive NumPhase :=
| PMinus | PZero | PInt | PDot | PFrac | PExp | PExpSign | PExpDigits.

Record NumAcc := mkAcc {
  accNeg : bool;        (* a leading minus *)
  accDigits : N;        (* integer and fraction digits read so far *)
  accFrac : N;          (* how many of them are fraction digits *)
  accExpNeg : bool;     (* the exponent has a minus *)
  accExp : N            (* the exponent digits read so far *)
}.

Definition number (a : NumAcc) : JSNumber :=
  mkNumber (accNeg a) (accDigits a)
    ((if accExpNeg a then - Z.of_N (accExp a) else Z.of_N (accExp a))
     - Z.of_N (accFrac a))%Z.

Inductive LexState :=
| LxStart                                   (* between two tokens *)
| LxString (acc : jsstring)                 (* in a string; [acc] reversed *)
| LxEscape (acc : jsstring)                 (* after a backslash *)
| LxUnicode (acc : jsstring) (more : nat) (code : N)  (* in \uXXXX *)
| LxWord (rest : jsstring) (tok : Token)    (* in true, false or null *)
| LxNumber (phase : NumPhase) (a : NumAcc).

Definition isDigit (c : N) : bool := (48 <=? c) && (c <=? 57).

Definition hexValue (c : N) : option N :=
  if isDigit c then Some (c - 48)
  else if (97 <=? c) && (c <=? 102) then Some (c - 87)
  else if (65 <=? c) && (c <=? 70) then Some (c - 55)
  else None.

(** JSON white space: tab, line feed, carriage return, space. *)
Definition isJSONWhiteSpace (c : N) : bool :=
  (c =? 9) || (c =? 10) || (c =? 13) || (c =? 32).

(** The first code unit of a token. *)
Definition lexStart (c : N) : option (LexState * list Token) :=
  if isJSONWhiteSpace c then Some (LxStart, [])
  else if c =? 123 then Some (LxStart, [TLBrace])
  else if c =? 125 then Some (LxStart, [TRBrace])
  else if c =? 91 then Some (LxStart, [TLBracket])
  else if c =? 93 then Some (LxStart, [TRBracket])
  else if c =? 58 then Some (LxStart, [TColon])
  else if c =? 44 then Some (LxStart, [TComma])
  else if c =? 34 then Some (LxString [], [])
  else if c =? 45 then Some (LxNumber PMinus (mkAcc true 0 0 false 0), [])
  else if c =? 48 then Some (LxNumber PZero (mkAcc false 0 0 false 0), [])
  else if isDigit c then
    Some (LxNumber PInt (mkAcc false (c - 48) 0 false 0), [])
  else if c =? 116 then Some (LxWord (js "rue") TTrue, [])
  else if c =? 102 then Some (LxWord (js "alse") TFalse, [])
  else if c =? 110 then Some (LxWord (js "ull") TNull, [])
  else None.

Definition pushDigit (a : NumAcc) (c : N) : NumAcc :=
  mkAcc (accNeg a) (accDigits a * 10 + (c - 48)) (accFrac a)
        (accExpNeg a) (accExp a).

Definition pushFraction (a : NumAcc) (c : N) : NumAcc :=
  mkAcc (accNeg a) (accDigits a * 10 + (c - 48)) (accFrac a + 1)
        (accExpNeg a) (accExp a).

Definition pushExponent (a : NumAcc) (c : N) : NumAcc :=
  mkAcc (accNeg a) (accDigits a) (accFrac a)
        (accExpNeg a) (accExp a * 10 + (c - 48)).

Definition negateExponent (a : NumAcc) : NumAcc :=
  mkAcc (accNeg a) (accDigits a) (accFrac a) true (accExp a).

(** A number literal may end in these phases. *)
Definition complete (p : NumPhase) : bool :=
  match p with
  | PZero | PInt | PFrac | PExpDigits => true
  | _ => false
  end.

Definition isE (c : N) : bool := (c =? 101) || (c =? 69).

(** The literal goes on with [c]. *)
Definition lexNumber (p : NumPhase) (a : NumAcc) (c : N)
  : option (NumPhase * NumAcc) :=
  match p with
  | PMinus =>
      if c =? 48 then Some (PZero, a)
      else if isDigit c then Some (PInt, pushDigit a c) else None
  | PZero =>
      if c =? 46 then Some (PDot, a)
      else if isE c then Some (PExp, a) else None
  | PInt =>
      if isDigit c then Some (PInt, pushDigit a c)
      else if c =? 46 then Some (PDot, a)
      else if isE c then Some (PExp, a) else None
  | PDot => if isDigit c then Some (PFrac, pushFraction a c) else None
  | PFrac =>
      if isDigit c then Some (PFrac, pushFraction a c)
      else if isE c then Some (PExp, a) else None
  | PExp =>
      if c =? 43 then Some (PExpSign, a)
      else if c =? 45 then Some (PExpSign, negateExponent a)
      else if isDigit c then Some (PExpDigits, pushExponent a c) else None
  | PExpSign => if isDigit c then Some (PExpDigits, pushExponent a c) else None
  | PExpDigits => if isDigit c then Some (PExpDigits, pushExponent a c) else None
  end.

(** The code unit an escape [\c] stands for. *)
Definition escape (c : N) : option N :=
  if c =? 34 then Some 34            (* quote *)
  else if c =? 92 then Some 92       (* backslash *)
  else if c =? 47 then Some 47       (* slash *)
  else if c =? 98 then Some 8        (* b *)
  else if c =? 102 then Some 12      (* f *)
  else if c =? 110 then Some 10      (* n *)
  else if c =? 114 then Some 13      (* r *)
  else if c =? 116 then Some 9       (* t *)
  else None.

(** One step of the lexer: the next state and the tokens completed. *)
Definition lexStep (st : LexState) (c : N) : option (LexState * list Token) :=
  match st with
  | LxStart => lexStart c
  | LxString acc =>
      if c =? 34 then Some (LxStart, [TString (rev acc)])
      else if c =? 92 then Some (LxEscape acc, [])
      else if c <? 32 then None
      else Some (LxString (c :: acc), [])
  | LxEscape acc =>
      if c =? 117 then Some (LxUnicode acc 4 0, [])
      else match escape c with
           | Some x => Some (LxString (x :: acc), [])
           | None => None
           end
  | LxUnicode acc more code =>
      match hexValue c with
      | None => None
      | Some h =>
          match more with
          | S O | O => Some (LxString ((code * 16 + h) :: acc), [])
          | S more' => Some (LxUnicode acc more' (code * 16 + h), [])
          end
      end
  | LxWord rest tok =>
      match rest with
      | [] => None
      | x :: rest' =>
          if c =? x
          then match rest' with
               | [] => Some (LxStart, [tok])
               | _ :: _ => Some (LxWord rest' tok, [])
               end
          else None
      end
  | LxNumber p a =>
      match lexNumber p a c with
      | Some (p', a') => Some (LxNumber p' a', [])
      | None =>
          if complete p
          then match lexStart c with
               | Some (st', toks) => Some (st', TNumber (number a) :: toks)
               | None => None
               end
          else None
      end
  end.

(** The end of the text. *)
Definition lexEnd (st : LexState) : option (list Token) :=
  match st with
  | LxStart => Some []
  | LxNumber p a => if complete p then Some [TNumber (number a)] else None
  | _ => None
  end.

Fixpoint lexFrom (st : LexState) (s : jsstring) : option (list Token) :=
  match s with
  | [] => lexEnd st
  | c :: s' =>
      match lexStep st c with
      | None => None
      | Some (st', toks) =>
          match lexFrom st' s' with
          | Some more => Some (toks ++ more)
          | None => None
          end
      end
  end.

Definition lex (s : jsstring) : option (list Token) := lexFrom LxStart s.

(** A container under construction. *)
Inductive Frame :=
| FArray (elements : list JSValue)          (* reversed *)
| FObject (properties : list (jsstring * JSValue)) (key : option jsstring).

(** What the recogniser expects next. *)
Inductive Expect :=
| EValue            (* a value *)
| EValueOrClose     (* after [[]: a value or []] *)
| EKeyOrClose       (* after [{]: a key or [}] *)
| EKey              (* after a comma in an object: a key *)
| EColon            (* after a key *)
| ECommaOrClose     (* after an element or a member *)
| EEnd (v : JSValue).   (* the value is complete *)

Definition PState := (list Frame * Expect)%type.

(** A value is complete: it is the whole text, or goes into the
    innermost container. *)
Definition reduce (v : JSValue) (stack : list Frame) : option PState :=
  match stack with
  | [] => Some ([], EEnd v)
  | FArray elements :: below =>
      Some (FArray (v :: elements) :: below, ECommaOrClose)
  | FObject properties (Some k) :: below =>
      Some (FObject (JS.setProperty k v properties) None :: below,
            ECommaOrClose)
  | FObject _ None :: _ => None
  end.

Definition scalar (t : Token) : option JSValue :=
  match t with
  | TString s => Some (JString s)
  | TNumber n => Some (JNumber n)
  | TTrue => Some (JBool true)
  | TFalse => Some (JBool false)
  | TNull => Some JNull
  | _ => None
  end.

Definition value (t : Token) (stack : list Frame) : option PState :=
  match t with
  | TLBracket => Some (FArray [] :: stack, EValueOrClose)
  | TLBrace => Some (FObject [] None :: stack, EKeyOrClose)
  | _ => match scalar t with
         | Some v => reduce v stack
         | None => None
         end
  end.

Definition close (t : Token) (stack : list Frame) : option PState :=
  match t, stack with
  | TRBracket, FArray elements :: below => reduce (JArray (rev elements)) below
  | TRBrace, FObject properties None :: below =>
      reduce (JObject properties) below
  | _, _ => None
  end.

Definition key (t : Token) (stack : list Frame) : option PState :=
  match t, stack with
  | TString k, FObject properties None :: below =>
      Some (FObject properties (Some k) :: below, EColon)
  | _, _ => None
  end.

Definition parseStep (st : PState) (t : Token) : option PState :=
  let '(stack, expect) := st in
  match expect with
  | EValue => value t stack
  | EValueOrClose =>
      match t with TRBracket => close t stack | _ => value t stack end
  | EKeyOrClose =>
      match t with TRBrace => close t stack | _ => key t stack end
  | EKey => key t stack
  | EColon => match t with TColon => Some (stack, EValue) | _ => None end
  | ECommaOrClose =>
      match t, stack with
      | TComma, FArray _ :: _ => Some (stack, EValue)
      | TComma, FObject _ _ :: _ => Some (stack, EKey)
      | _, _ => close t stack
      end
  | EEnd _ => None
  end.

Fixpoint parseFrom (st : PState) (toks : list Token) : option JSValue :=
  match toks with
  | [] => match st with ([], EEnd v) => Some v | _ => None end
  | t :: toks' =>
      match parseStep st t with
      | Some st' => parseFrom st' toks'
      | None => None
      end
  end.

(** [JSON.parse(s)]; [None] is the SyntaxError. *)
Definition parse (s : jsstring) : option JSValue :=
  match lex s with
  | Some toks => parseFrom ([], EValue) toks
  | None => None
  end.

End JSON.


(* ================================================================== *)
(** * Computations: traces and exceptions *)
(* ================================================================== *)

(** The two external services and the browser, as data. *)

(** A [File] of the form: its name, its declared MIME type, and what a
    [FileReader] makes of it in each mode ([None] is the [error] event). *)
Module File.
Record t := make {
  name : jsstring;
  type : jsstring;
  readAsText : option jsstring;
  readAsDataURL : option jsstring;
  readAsArrayBuffer : option (list N)
}.
End File.

(** What [fetch] resolves with. *)
Module Response.
Record t := make {
  ok : bool;
  status : N;
  json : Result JSValue      (* what [response.json()] settles with *)
}.
End Response.

(** A [Part] of the request to the model. *)
Module Part.
Inductive t :=
| text (text : jsstring)                               (* { text } *)
| inlineData (data : JSValue) (mimeType : jsstring).   (* { inlineData } *)
End Part.

(** The [Type]s of a response schema; descriptions, which are free text
    for the model, are left out. *)
#[warnings="-register-all"]
Inductive Schema :=
| NUMBER
| STRING
| BOOLEAN
| ARRAY (items : Schema)
| OBJECT (properties : list (jsstring * Schema)) (required : list jsstring).

(** The argument of [ai.models.generateContent]. *)
Module GenerateContentParameters.
Record t := make {
  model : jsstring;
  contents : list Part.t;
  responseMimeType : jsstring;
  responseSchema : Schema;
  temperature : JSNumber
}.
End GenerateContentParameters.

(** Its result: the getter [text] gives a string or [undefined]. *)
Module GenerateContentResponse.
Record t := make {
  text : option jsstring
}.
End GenerateContentResponse.

Inductive ReadAs := AsText | AsArrayBuffer | AsDataURL.

(** Errors the engine raises by itself; their wording is the engine's. *)
Inductive EngineError :=
| ReadOfNullish (v : JSValue) (property : jsstring)   (* TypeError *)
| JSONSyntax (source : jsstring).                     (* SyntaxError *)

(** What a run observes and does. *)
Inductive Event :=
| SetIsLoading (b : bool)
| SetLoadingMessage (m : jsstring)
| SetError (e : option jsstring)
| SetResult (r : option JSValue)
| Fetch (url : jsstring)                              (* the explorer *)
| GenerateContent (request : GenerateContentParameters.t)  (* the model *)
| Read (file : File.t) (readAs : ReadAs)              (* a FileReader *)
| ConsoleError (message : jsstring) (detail : JSValue).

(** Everything outside the program. *)
Record World := mkWorld {
  (* ../constants *)
  ETHERSCAN_API_URL : jsstring;
  ETHERSCAN_API_KEY : jsstring;
  (* process.env.API_KEY *)
  API_KEY : option jsstring;
  (* the network *)
  fetch : jsstring -> Result Response.t;
  generateContent :
    GenerateContentParameters.t -> Result GenerateContentResponse.t;
  (* the engine *)
  Number_toString : JSNumber -> jsstring;
  engineMessage : EngineError -> jsstring
}.

(** A computation: the events it emitted, and how it ended. *)
Definition Run (A : Type) : Type := (list Event * Result A)%type.

Definition ret {A} (a : A) : Run A := ([], Returned a).

Definition throw {A} (e : Thrown) : Run A := ([], Threw e).

Definition bind {A B} (m : Run A) (k : A -> Run B) : Run B :=
  match m with
  | (t1, Returned a) => let '(t2, r) := k a in (t1 ++ t2, r)
  | (t1, Threw e) => (t1, Threw e)
  end.

(** One event. *)
Definition emit (ev : Event) : Run unit := ([ev], Returned tt).

(** [await] of a call to the outside: the call is an event, and the
    world settles it. *)
Definition await {A} (ev : Event) (settled : Result A) : Run A :=
  ([ev], settled).

(** [try { m } catch (e) { handler e }] *)
Definition tryCatch {A} (m : Run A) (handler : Thrown -> Run A) : Run A :=
  match m with
  | (t1, Threw e) => let '(t2, r) := handler e in (t1 ++ t2, r)
  | (t1, Returned a) => (t1, Returned a)
  end.

(** [try { m } finally { cleanup }] *)
Definition finally {A} (m : Run A) (cleanup : Run unit) : Run A :=
  let '(t1, r) := m in
  match cleanup with
  | (t2, Returned _) => (t1 ++ t2, r)
  | (t2, Threw e) => (t1 ++ t2, Threw e)
  end.

Declare Scope run_scope.
Delimit Scope run_scope with run.
Notation "x <- m ;; k" := (bind m (fun x => k))
  (at level 100, m at next level, right associativity) : run_scope.
Notation "m ;; k" := (bind m (fun _ => k))
  (at level 100, right associativity) : run_scope.
Open Scope run_scope.

Definition trace {A} (m : Run A) : list Event := fst m.
Definition outcome {A} (m : Run A) : Result A := snd m.

(** [v.p] in a computation. *)
Definition get (w : World) (v : JSValue) (p : jsstring) : Run JSValue :=
  ([], JS.Get (fun v p => engineMessage w (ReadOfNullish v p)) v p).

(** [`${v}`] *)
Definition show (w : World) (v : JSValue) : jsstring :=
  JS.ToString (Number_toString w) v.

(* ================================================================== *)
(** * src/types.ts *)
(* ================================================================== *)

Inductive InputType := address | file.

(** The interfaces of [types.ts], read as predicates on a parsed value:
    every declared field is present and has the declared type. *)
Module Types.

Definition hasString (p : string) (o : list (jsstring * JSValue)) : bool :=
  match JS.lookup (js p) o with Some (JString _) => true | _ => false end.

Definition hasNumber (p : string) (o : list (jsstring * JSValue)) : bool :=
  match JS.lookup (js p) o with Some (JNumber _) => true | _ => false end.

Definition hasBoolean (p : string) (o : list (jsstring * JSValue)) : bool :=
  match JS.lookup (js p) o with Some (JBool _) => true | _ => false end.

Definition hasArrayOf (elem : JSValue -> bool) (p : string)
    (o : list (jsstring * JSValue)) : bool :=
  match JS.lookup (js p) o with
  | Some (JArray l) => forallb elem l
  | _ => false
  end.

Definition isSeverity (v : JSValue) : bool :=
  existsb (fun s => JS.isString v (js s))
    ["Critical"; "High"; "Medium"; "Low"; "Informational"]%string.

Definition isVulnerability (v : JSValue) : bool :=
  match v with
  | JObject o =>
      hasString "name" o
      && match JS.lookup (js "severity") o with
         | Some s => isSeverity s
         | None => false
         end
      && hasString "description" o
  | _ => false
  end.

Definition isTokenomics (v : JSValue) : bool :=
  match v with
  | JObject o => hasString "analysis" o && hasBoolean "passedAuditStandards" o
  | _ => false
  end.

Definition isRedFlag (v : JSValue) : bool :=
  match v with
  | JObject o => hasString "flag" o && hasString "description" o
  | _ => false
  end.

Definition isAnalysisResult (v : JSValue) : bool :=
  match v with
  | JObject o =>
      hasNumber "score" o
      && hasString "recommendation" o
      && hasString "summary" o
      && hasArrayOf isVulnerability "vulnerabilities" o
      && match JS.lookup (js "tokenomics") o with
         | Some t => isTokenomics t
         | None => false
         end
      && hasArrayOf isRedFlag "exchangeRedFlags" o
  | _ => false
  end.

(** The six fields of [AnalysisResult]. *)
Definition fields : list string :=
  ["score"; "recommendation"; "summary"; "vulnerabilities"; "tokenomics";
   "exchangeRedFlags"]%string.

Definition hasField (v : JSValue) (p : string) : bool :=
  match v with
  | JObject o => match JS.lookup (js p) o with Some _ => true | None => false end
  | _ => false
  end.

End Types.

(* ================================================================== *)
(** * src/services/apiService.ts *)
(* ================================================================== *)

(** Line 6: the [url] of the lookup. *)
Definition explorerUrl (w : World) (address : jsstring) : jsstring :=
  ETHERSCAN_API_URL w ++ js "?module=contract&action=getsourcecode&address="
  ++ address ++ js "&chainid=1&apikey=" ++ ETHERSCAN_API_KEY w.

Definition fetchContractFromEtherscan (w : World) (address : jsstring)
  : Run JSValue :=
  let url := explorerUrl w address in
  response <- await (Fetch url) (fetch w url) ;;
  if negb (Response.ok response) then
    throw (Error (js "Failed to fetch from Etherscan API. Status: "
                  ++ Str.ofN (Response.status response)))
  else
    data <- ([], Response.json response) ;;
    status <- get w data (js "status") ;;
    if JS.isString status (js "0") then
      result <- get w data (js "result") ;;
      let errorMessage :=
        if JS.truthy result then result
        else JString (js "An unknown error occurred with the Etherscan API.") in
      throw (Error (js "Etherscan API Error: " ++ show w errorMessage))
    else
      result <- get w data (js "result") ;;
      if negb (JS.truthy result) || negb (JS.isArray result)
         || Nat.eqb (JS.length result) 0
      then
        throw (Error (js "Etherscan API returned an unexpected or empty response format."))
      else
        let sourceCodeInfo := JS.first result in
        SourceCode <- get w sourceCodeInfo (js "SourceCode") ;;
        if JS.isString SourceCode (js "") || JS.isUndefined SourceCode then
          throw (Error (js "Contract source code is not verified or available on Etherscan."))
        else
          ret SourceCode.

(** The whitepaper argument of [analyzeContractWithGemini]. *)
Record Whitepaper := mkWhitepaper {
  data : JSValue;
  mimeType : jsstring;
  isText : bool
}.

Definition promptIntro : jsstring := js "
    Analyze the following smart contract code and optional project white paper.

    Perform a comprehensive audit and provide the output ONLY in the specified JSON format.

    **Analysis requirements:**
    1.  **Vulnerability Scan:** Analyze the code for common vulnerabilities (reentrancy, overflows, access control, etc.). List each, its severity (Critical, High, Medium, Low), and an explanation.
    2.  **Tokenomics Analysis:** Evaluate the tokenomics (supply, distribution, vesting). Assess if the structure is sound.
    3.  **Exchange Red Flags:** Identify red flags for exchanges (honeypot, rug pull potential, centralization).
    4.  **Overall Summary & Investment Thesis:** Summarize findings and give a clear investment recommendation from a technical perspective.
    5.  **Safety Score:** Provide a safety score from 0 (extremely risky) to 100 (very secure).
    
    Here is the smart contract:
  ".

Definition responseSchema : Schema :=
  OBJECT
    [ (js "score", NUMBER);
      (js "recommendation", STRING);
      (js "summary", STRING);
      (js "vulnerabilities",
        ARRAY (OBJECT [ (js "name", STRING); (js "severity", STRING);
                        (js "description", STRING) ]
                      [ js "name"; js "severity"; js "description" ]));
      (js "tokenomics",
        OBJECT [ (js "analysis", STRING); (js "passedAuditStandards", BOOLEAN) ]
               [ js "analysis"; js "passedAuditStandards" ]);
      (js "exchangeRedFlags",
        ARRAY (OBJECT [ (js "flag", STRING); (js "description", STRING) ]
                      [ js "flag"; js "description" ])) ]
    [ js "score"; js "recommendation"; js "summary"; js "vulnerabilities";
      js "tokenomics"; js "exchangeRedFlags" ].

(** Lines 59-78: the parts of the request, in order. *)
Definition whitepaperParts (w : World) (whitepaper : option Whitepaper)
  : list Part.t :=
  match whitepaper with
  | Some wp =>
      if isText wp then
        [ Part.text (js "Here is the whitepaper content:" ++ LF ++ LF
                 ++ show w (data wp)) ]
      else
        [ Part.text (js "Here is the whitepaper file for analysis:");
          Part.inlineData (data wp) (mimeType wp) ]
  | None => [ Part.text (js "No whitepaper was provided.") ]
  end.

(** [```solidity\n${code}\n```] *)
Definition fenced (code : jsstring) : jsstring :=
  js "```solidity" ++ LF ++ code ++ LF ++ js "```".

Definition parts (w : World) (contractCode : JSValue)
    (whitepaper : option Whitepaper) : list Part.t :=
  [ Part.text promptIntro; Part.text (fenced (show w contractCode)) ]
  ++ whitepaperParts w whitepaper.

Definition request (w : World) (contractCode : JSValue)
    (whitepaper : option Whitepaper) : GenerateContentParameters.t :=
  GenerateContentParameters.make
    (* model *) (js "gemini-2.5-pro")
    (* contents *) (parts w contractCode whitepaper)
    (* config.responseMimeType *) (js "application/json")
    (* config.responseSchema *) responseSchema
    (* config.temperature, 0.2 *) (mkNumber false 2 (-1)).

(** The fixed message of line 140. *)
Definition invalidAnalysis : jsstring :=
  js "AI failed to return a valid analysis. Please try again.".

(** Lines 134-141: the response is trimmed and parsed; whatever is thrown
    on the way is logged with the raw text and replaced. *)
Definition parseResponse (w : World) (response : GenerateContentResponse.t)
  : Run JSValue :=
  tryCatch
    (match GenerateContentResponse.text response with
     | None =>
         throw (Error (engineMessage w (ReadOfNullish JUndefined (js "trim"))))
     | Some t =>
         let jsonText := Str.trim t in
         match JSON.parse jsonText with
         | Some result => ret result
         | None => throw (Error (engineMessage w (JSONSyntax jsonText)))
         end
     end)
    (fun e =>
       emit (ConsoleError (js "Failed to parse Gemini response:")
               match GenerateContentResponse.text response with
               | Some t => JString t
               | None => JUndefined
               end) ;;
       throw (Error invalidAnalysis)).

(** [!process.env.API_KEY] *)
Definition noApiKey (w : World) : bool :=
  match API_KEY w with
  | Some (_ :: _) => false
  | Some [] | None => true
  end.

Definition analyzeContractWithGemini (w : World) (contractCode : JSValue)
    (whitepaper : option Whitepaper) : Run JSValue :=
  if noApiKey w then
    throw (Error (js "API_KEY environment variable not set"))
  else
    let req := request w contractCode whitepaper in
    response <- await (GenerateContent req) (generateContent w req) ;;
    parseResponse w response.

(* ================================================================== *)
(** * src/App.tsx *)
(* ================================================================== *)

(** The state of the [App] component: its eight [useState] cells. *)
Record AppState := mkState {
  inputType : InputType;
  contractAddress : jsstring;
  contractFile : option File.t;
  whitepaperFile : option File.t;
  isLoading : bool;
  loadingMessage : jsstring;
  error : option jsstring;
  result : option JSValue
}.

(** The effect of a [set...] call on the state; the other events leave
    it as it is. *)
Definition update (st : AppState) (ev : Event) : AppState :=
  match ev with
  | SetIsLoading b =>
      mkState (inputType st) (contractAddress st) (contractFile st)
        (whitepaperFile st) b (loadingMessage st) (error st) (result st)
  | SetLoadingMessage m =>
      mkState (inputType st) (contractAddress st) (contractFile st)
        (whitepaperFile st) (isLoading st) m (error st) (result st)
  | SetError e =>
      mkState (inputType st) (contractAddress st) (contractFile st)
        (whitepaperFile st) (isLoading st) (loadingMessage st) e (result st)
  | SetResult r =>
      mkState (inputType st) (contractAddress st) (contractFile st)
        (whitepaperFile st) (isLoading st) (loadingMessage st) (error st) r
  | Fetch _ | GenerateContent _ | Read _ _ | ConsoleError _ _ => st
  end.

(** The state after a trace. *)
Definition after (st : AppState) (events : list Event) : AppState :=
  fold_left update events st.

(** What [fileReader<T>] resolves with, by mode. *)
Definition ReaderResult (readAs : ReadAs) : Type :=
  match readAs with
  | AsArrayBuffer => list N
  | AsText | AsDataURL => jsstring
  end.

(** A promise settled by the reader: [onload] resolves with the result,
    [onerror] rejects with the event, which is not an [Error]. *)
Definition settle {A} (r : option A) : Result A :=
  match r with
  | Some a => Returned a
  | None => Threw NotAnError
  end.

Definition fileReader (f : File.t) (readAs : ReadAs)
  : Run (ReaderResult readAs) :=
  match readAs return Run (ReaderResult readAs) with
  | AsText => await (Read f AsText) (settle (File.readAsText f))
  | AsDataURL => await (Read f AsDataURL) (settle (File.readAsDataURL f))
  | AsArrayBuffer =>
      await (Read f AsArrayBuffer) (settle (File.readAsArrayBuffer f))
  end.

(** [/^0x[a-fA-F0-9]{40}$/] *)
Definition addressPattern : Regex.t :=
  Regex.Seq (Regex.Char 48)
    (Regex.Seq (Regex.Char 120)
       (Regex.Repeat 40 (Regex.Class [(97, 102); (65, 70); (48, 57)]))).

(** Lines 57-68: the contract source, from the explorer or from a file. *)
Definition resolveSource (w : World) (st : AppState) : Run JSValue :=
  match inputType st with
  | address =>
      if negb (Regex.test addressPattern (contractAddress st)) then
        throw (Error (js "Please enter a valid Ethereum address."))
      else
        emit (SetLoadingMessage (js "Fetching contract from Etherscan...")) ;;
        fetchContractFromEtherscan w (contractAddress st)
  | file =>
      match contractFile st with
      | None => throw (Error (js "Please upload a contract file."))
      | Some f =>
          emit (SetLoadingMessage (js "Reading contract file...")) ;;
          contractCode <- fileReader f AsText ;;
          ret (JString contractCode)
      end
  end.

Definition docxMimeType : jsstring :=
  js "application/vnd.openxmlformats-officedocument.wordprocessingml.document".

(** The branch the [if] chain of lines 76-89 takes. *)
Inductive WhitepaperKind := IsTextFile | IsPdf | IsDocx | Unsupported.

Definition classify (fileName fileType : jsstring) : WhitepaperKind :=
  if Str.endsWith fileName (js ".txt") || Str.endsWith fileName (js ".md")
     || Str.startsWith fileType (js "text/")
  then IsTextFile
  else if Str.endsWith fileName (js ".pdf")
          || Str.eqb fileType (js "application/pdf")
  then IsPdf
  else if Str.endsWith fileName (js ".docx") || Str.eqb fileType docxMimeType
  then IsDocx
  else Unsupported.

(** [dataUrl.split(',')[1]] *)
Definition base64Data (dataUrl : jsstring) : JSValue :=
  match nth_error (Str.split 44 dataUrl) 1 with
  | Some piece => JString piece
  | None => JUndefined
  end.

(** Lines 70-90: the whitepaper payload, when a file was chosen. *)
Definition whitepaperPayload (st : AppState) : Run (option Whitepaper) :=
  match whitepaperFile st with
  | None => ret None
  | Some f =>
      emit (SetLoadingMessage (js "Reading whitepaper...")) ;;
      let fileType := File.type f in
      let fileName := Str.toLowerCase (File.name f) in
      match classify fileName fileType with
      | IsTextFile =>
          text <- fileReader f AsText ;;
          ret (Some (mkWhitepaper (JString text)
                       (Str.orElse fileType (js "text/plain")) true))
      | IsPdf =>
          dataUrl <- fileReader f AsDataURL ;;
          ret (Some (mkWhitepaper (base64Data dataUrl)
                       (js "application/pdf") false))
      | IsDocx =>
          dataUrl <- fileReader f AsDataURL ;;
          ret (Some (mkWhitepaper (base64Data dataUrl) docxMimeType false))
      | Unsupported =>
          throw (Error (js "Unsupported whitepaper file type: " ++ File.name f
                        ++ js ". Please use PDF, DOCX, TXT, or MD."))
      end
  end.

(** Lines 56-94: the body of the [try]. *)
Definition analysis (w : World) (st : AppState) : Run JSValue :=
  contractCode <- resolveSource w st ;;
  payload <- whitepaperPayload st ;;
  emit (SetLoadingMessage (js "Analyzing with Gemini AI...")) ;;
  analysisResult <- analyzeContractWithGemini w contractCode payload ;;
  emit (SetResult (Some analysisResult)) ;;
  ret analysisResult.

(** The message the handler of lines 96-101 shows for what it caught. *)
Definition shown (e : Thrown) : jsstring :=
  match e with
  | Error message => message
  | NotAnError => js "An unknown error occurred."
  end.

Definition handleAnalyze (w : World) (st : AppState) : Run unit :=
  emit (SetIsLoading true) ;;
  emit (SetError None) ;;
  emit (SetResult None) ;;
  finally
    (tryCatch (analysis w st ;; ret tt)
              (fun e => emit (SetError (Some (shown e)))))
    (emit (SetIsLoading false) ;;
     emit (SetLoadingMessage (js ""))).

(** The calls a trace made to the two services, and the requests it sent
    to the model. *)
Definition isFetch (ev : Event) : bool :=
  match ev with Fetch _ => true | _ => false end.

Definition isGenerateContent (ev : Event) : bool :=
  match ev with GenerateContent _ => true | _ => false end.

Definition isExternal (ev : Event) : bool :=
  isFetch ev || isGenerateContent ev.

Definition networkCalls (events : list Event) : list Event :=
  filter isExternal events.

Definition requests (events : list Event) : list GenerateContentParameters.t :=
  flat_map (fun ev => match ev with GenerateContent r => [r] | _ => [] end)
           events.

(* ================================================================== *)
(** * The vocabulary of the specification *)
(* ================================================================== *)

(** The specification names six kinds of failure; the program throws
    plain [Error]s, told apart by their message.  These are the errors of
    the program under the names of the specification. *)
Module Failure.


(** UnsupportedFileType, naming the file. *)
Definition UnsupportedFileType (fileName : jsstring) : Thrown :=
  Error (js "Unsupported whitepaper file type: " ++ fileName
         ++ js ". Please use PDF, DOCX, TXT, or MD.").

(** ConfigurationError *)
Definition ConfigurationError : Thrown :=
  Error (js "API_KEY environment variable not set").

(** InvalidResponse *)
Definition InvalidResponse : Thrown := Error invalidAnalysis.

(** UpstreamError, in its four wordings. *)
Definition HttpStatus (status : N) : Thrown :=
  Error (js "Failed to fetch from Etherscan API. Status: " ++ Str.ofN status).

Definition ApiError (message : jsstring) : Thrown :=
  Error (js "Etherscan API Error: " ++ message).

Definition UnexpectedFormat : Thrown :=
  Error (js "Etherscan API returned an unexpected or empty response format.").

Definition NotVerified : Thrown :=
  Error (js "Contract source code is not verified or available on Etherscan.").

End Failure.



(** The envelope of the explorer, read as the specification reads it: a
    status flag, and a result list whose first element carries a
    [SourceCode] field. *)
Module Envelope.

(** The status flag is the string 0. *)
Definition statusFlagZero (data : JSValue) : bool :=
  match data with
  | JObject o =>
      match JS.lookup (js "status") o with
      | Some status => JS.isString status (js "0")
      | None => false
      end
  | _ => false
  end.

Definition result (data : JSValue) : option JSValue :=
  match data with
  | JObject o => JS.lookup (js "result") o
  | _ => None
  end.

(** The first element of the result list, when the result is a list
    and has one. *)
Definition first (data : JSValue) : option JSValue :=
  match result data with
  | Some (JArray (x :: _)) => Some x
  | _ => None
  end.

(** The result payload is missing, empty or malformed: the envelope is
    not an object with a non-empty result list, or the first element
    of the list is [null]. *)
Definition payloadMalformed (data : JSValue) : bool :=
  match first data with
  | Some JNull | Some JUndefined | None => true
  | Some _ => false
  end.

Definition SourceCode (data : JSValue) : option JSValue :=
  match first data with
  | Some (JObject o) => JS.lookup (js "SourceCode") o
  | _ => None
  end.

(** The source field is the empty string, or is not there. *)
Definition sourceEmpty (data : JSValue) : bool :=
  match SourceCode data with
  | Some (JString []) | Some JUndefined | None => true
  | Some _ => false
  end.




End Envelope.


(** The text of a response of the model, trimmed and parsed. *)
Definition parsed (response : GenerateContentResponse.t) : option JSValue :=
  match GenerateContentResponse.text response with
  | Some t => JSON.parse (Str.trim t)
  | None => None
  end.

(** The raw text of a response, as the console shows it. *)
Definition raw (response : GenerateContentResponse.t) : JSValue :=
  match GenerateContentResponse.text response with
  | Some t => JString t
  | None => JUndefined
  end.

(** A state update that touches neither the error nor the result nor
    the loading flag. *)
Definition quiet (ev : Event) : bool :=
  match ev with
  | SetIsLoading _ | SetError _ | SetResult _ => false
  | _ => true
  end.



(** The branch taken for a file. *)
Definition kindOf (f : File.t) : WhitepaperKind :=
  classify (Str.toLowerCase (File.name f)) (File.type f).





(** The same file under another name, or with another declared type. *)
Definition renamed (f : File.t) (name : jsstring) : File.t :=
  File.make name (File.type f) (File.readAsText f) (File.readAsDataURL f)
    (File.readAsArrayBuffer f).

Definition retyped (f : File.t) (type : jsstring) : File.t :=
  File.make (File.name f) type (File.readAsText f) (File.readAsDataURL f)
    (File.readAsArrayBuffer f).

(** The scenario of the specification: the address of forty ones, an
    explorer that answers with the source [contract A{}], no whitepaper. *)
Module Scenario.

Definition envelope : JSValue :=
  JObject [ (js "status", JString (js "1"));
            (js "message", JString (js "OK"));
            (js "result",
              JArray [ JObject [ (js "SourceCode",
                                   JString (js "contract A{}")) ] ]) ].

(** The explorer answers every request with the envelope, the model
    answers with an empty object; no number is printed in the scenario,
    and the engine of this world prints the digits of one. *)
Definition world : World :=
  mkWorld (js "https://api.etherscan.io/v2/api") (js "explorer-key")
    (Some (js "model-key"))
    (fun _ => Returned (Response.make true 200 (Returned envelope)))
    (fun _ => Returned (GenerateContentResponse.make (Some (js "{}"))))
    (fun n => Str.ofN (digits n))
    (fun _ => js "engine error").

Definition state : AppState :=
  mkState address (js "0x1111111111111111111111111111111111111111")
    None None false [] None None.

(** The same world without a credential for the model. *)
Definition keyless : World :=
  mkWorld (ETHERSCAN_API_URL world) (ETHERSCAN_API_KEY world) None
    (fetch world) (generateContent world)
    (Number_toString world) (engineMessage world).

(** The same world with a model that answers [text]. *)
Definition answering (text : option jsstring) : World :=
  mkWorld (ETHERSCAN_API_URL world) (ETHERSCAN_API_KEY world)
    (API_KEY world) (fetch world)
    (fun _ => Returned (GenerateContentResponse.make text))
    (Number_toString world) (engineMessage world).

(** A file with a name and a declared type; it reads as the text
    [hello], and as a data URL of that text. *)
Definition fileNamed (name type : string) : File.t :=
  File.make (js name) (js type) (Some (js "hello"))
    (Some (js "data:" ++ js type ++ js ";base64,aGVsbG8="))
    (Some [104; 101; 108; 108; 111]).

(** A JSON string literal: the text between two quotation marks. *)
Definition quoted (s : string) : jsstring := 34 :: js s ++ [34].

(** A response of the model that has the shape of an AnalysisResult. *)
Definition analysisText : jsstring :=
  js " {" ++ quoted "score" ++ js ": 85, "
  ++ quoted "recommendation" ++ js ": " ++ quoted "Appears Secure" ++ js ", "
  ++ quoted "summary" ++ js ": " ++ quoted "No issue found." ++ js ", "
  ++ quoted "vulnerabilities" ++ js ": [{"
  ++ quoted "name" ++ js ": " ++ quoted "Reentrancy" ++ js ", "
  ++ quoted "severity" ++ js ": " ++ quoted "Low" ++ js ", "
  ++ quoted "description" ++ js ": " ++ quoted "guarded" ++ js "}], "
  ++ quoted "tokenomics" ++ js ": {"
  ++ quoted "analysis" ++ js ": " ++ quoted "sound" ++ js ", "
  ++ quoted "passedAuditStandards" ++ js ": true}, "
  ++ quoted "exchangeRedFlags" ++ js ": []} " ++ LF.

(** The form with a whitepaper chosen, and with a bad address. *)
Definition withWhitepaper (f : File.t) : AppState :=
  mkState address (contractAddress state) None (Some f) false [] None None.


End Scenario.

(* ================================================================== *)
(** * src/App.tsx: the form and what it shows *)
(* ================================================================== *)



Definition setContractAddress (st : AppState) (a : jsstring) : AppState :=
  mkState (inputType st) a (contractFile st) (whitepaperFile st)
    (isLoading st) (loadingMessage st) (error st) (result st).

Definition setContractFile (st : AppState) (f : option File.t) : AppState :=
  mkState (inputType st) (contractAddress st) f (whitepaperFile st)
    (isLoading st) (loadingMessage st) (error st) (result st).





(** What the component of lines 109-157 shows, as far as it depends on
    the state: which tab is highlighted, which contract input is there,
    the submit button, the loader, the error banner, the report. *)
Module View.

Inductive ContractInput :=
| AddressInput (value : jsstring)
| ContractFileInput.

(** [{result && <AnalysisReport result={result} />}]: React shows
    nothing for [null], [false] and the empty string, the digit 0 for a
    zero, and the report for any other result. *)
Inductive ReportSlot :=
| NoReport
| ZeroText
| AnalysisReport (result : JSValue).

Record t := make {
  addressTabActive : bool;
  contractInput : ContractInput;
  submitDisabled : bool;
  submitLabel : jsstring;
  loader : option jsstring;
  errorBanner : option jsstring;
  report : ReportSlot
}.

End View.


(* ================================================================== *)
(** * The report: the two helpers of lines 181-195 *)
(* ================================================================== *)

Module Report.

(** The exact value of a number. *)
Definition value (n : JSNumber) : Q :=
  (if negative n then - inject_Z (Z.of_N (digits n))
   else inject_Z (Z.of_N (digits n)))
  * Qpower (10 # 1) (exp10 n).

(** [score >= k] on doubles, for a [k] that is a double.  Rounding to the
    nearest double is monotone, so the double of a value is at least [k]
    exactly when the value is at least the midpoint of [k] and the
    double before it, the midpoint itself going to [k] when the
    significand of [k] is even.  Both hold for 80 (doubles are 2^-46
    apart below it) and for 50 (2^-47 apart). *)
Definition atLeast (k : Z) (halfGap : Q) (n : JSNumber) : bool :=
  Qle_bool (inject_Z k - halfGap) (value n).

Definition getScoreColor (score : JSNumber) : jsstring :=
  if atLeast 80 (1 # 140737488355328) score then js "text-green-400"
  else if atLeast 50 (1 # 281474976710656) score then js "text-yellow-400"
  else js "text-red-400".

Definition getSeverityClass (severity : jsstring) : jsstring :=
  let s := Str.toLowerCase severity in
  if Str.eqb s (js "critical")
  then js "bg-red-900/50 text-red-300 border-red-500"
  else if Str.eqb s (js "high")
  then js "bg-orange-900/50 text-orange-300 border-orange-500"
  else if Str.eqb s (js "medium")
  then js "bg-yellow-900/50 text-yellow-300 border-yellow-500"
  else if Str.eqb s (js "low")
  then js "bg-blue-900/50 text-blue-300 border-blue-500"
  else js "bg-gray-700/50 text-gray-300 border-gray-600".

End Report.

(* ================================================================== *)
(** * More vocabulary *)
(* ================================================================== *)

(** A file read; any contact with the outside. *)
Definition isRead (ev : Event) : bool :=
  match ev with Read _ _ => true | _ => false end.


(** Two states of the form with the same four inputs. *)
Definition sameInputs (a b : AppState) : Prop :=
  inputType a = inputType b
  /\ contractAddress a = contractAddress b
  /\ contractFile a = contractFile b
  /\ whitepaperFile a = whitepaperFile b.

(** [null] and [undefined], the values no property can be read of. *)
Definition nullish (v : JSValue) : bool :=
  match v with JNull | JUndefined => true | _ => false end.




(** Sample worlds, files and forms. *)
Module Sample.

(** A world whose explorer answers every request with [reply]. *)
Definition exploring (reply : Result Response.t) : World :=
  mkWorld (ETHERSCAN_API_URL Scenario.world) (ETHERSCAN_API_KEY Scenario.world)
    (API_KEY Scenario.world) (fun _ => reply)
    (generateContent Scenario.world)
    (Number_toString Scenario.world) (engineMessage Scenario.world).

(** A world whose model settles every request with [answer]. *)
Definition modelling (answer : Result GenerateContentResponse.t) : World :=
  mkWorld (ETHERSCAN_API_URL Scenario.world) (ETHERSCAN_API_KEY Scenario.world)
    (API_KEY Scenario.world) (fetch Scenario.world)
    (fun _ => answer)
    (Number_toString Scenario.world) (engineMessage Scenario.world).

(** A reply of the explorer with the body [data]. *)
Definition reply (data : JSValue) : Result Response.t :=
  Returned (Response.make true 200 (Returned data)).

(** A contract file, and one that cannot be read. *)
Definition contract : File.t :=
  File.make (js "Token.sol") [] (Some (js "contract T{}"))
    (Some (js "data:;base64,Y29udHJhY3QgVHt9")) None.

Definition unreadable : File.t :=
  File.make (js "Token.sol") [] None None None.

(** The form in FILE mode, with a contract file and a whitepaper. *)
Definition upload (contractFile whitepaper : option File.t) : AppState :=
  mkState file [] contractFile whitepaper false [] None None.

(** A pdf whose data URL has no comma. *)
Definition emptyPdf : File.t :=
  File.make (js "empty.pdf") (js "application/pdf") (Some []) (Some (js "data:"))
    (Some []).

(** The form of the scenario as an earlier run left it, with its error
    and its report. *)
Definition stale : AppState :=
  mkState address (contractAddress Scenario.state) None None false []
    (Some (js "Etherscan API Error: NOTOK")) (Some (JObject [])).


Definition hollow : JSValue :=
  JObject [ (js "status", JString (js "1")); (js "result", JArray [JNull]) ].

Definition flat : JSValue :=
  JObject [ (js "status", JString (js "1"));
            (js "result", JString (js "Contract source code not verified")) ].

Definition numeric : JSValue :=
  JObject [ (js "status", JString (js "1"));
            (js "result",
              JArray [ JObject [ (js "SourceCode",
                                   JNumber (mkNumber false 7 0)) ] ]) ].

End Sample.

(* ================================================================== *)
(** * Strings and patterns *)
(* ================================================================== *)

Lemma Str_eqb_eq (a b : jsstring) : Str.eqb a b = true <-> a = b.
Proof.
  revert b; induction a as [|x a IH]; intros [|y b]; simpl;
    try (split; [discriminate | congruence]); try tauto.
  rewrite andb_true_iff, N.eqb_eq, IH.
  split; [intros [-> ->]; reflexivity | intros [= -> ->]; auto].
Qed.

Lemma Str_eqb_refl (a : jsstring) : Str.eqb a a = true.
Proof. apply Str_eqb_eq; reflexivity. Qed.








(* ================================================================== *)
(** * Computations *)
(* ================================================================== *)

Lemma trace_bind {A B} (m : Run A) (k : A -> Run B) :
  trace (bind m k)
  = trace m ++ match outcome m with
               | Returned a => trace (k a)
               | Threw _ => []
               end.
Proof.
  destruct m as [t [a|e]]; simpl.
  - destruct (k a); reflexivity.
  - symmetry; apply app_nil_r.
Qed.

Lemma outcome_bind {A B} (m : Run A) (k : A -> Run B) :
  outcome (bind m k)
  = match outcome m with
    | Returned a => outcome (k a)
    | Threw e => Threw e
    end.
Proof.
  destruct m as [t [a|e]]; simpl; [destruct (k a)|]; reflexivity.
Qed.

Lemma run_eta {A} (m : Run A) : m = (trace m, outcome m).
Proof. destruct m; reflexivity. Qed.

Lemma after_app (st : AppState) (t1 t2 : list Event) :
  after st (t1 ++ t2) = after (after st t1) t2.
Proof. apply fold_left_app. Qed.

Lemma after_quiet (st : AppState) (t : list Event) :
  forallb quiet t = true ->
  error (after st t) = error st /\ result (after st t) = result st
  /\ isLoading (after st t) = isLoading st.
Proof.
  revert st; induction t as [|ev t IH]; intros st H; simpl in *; [auto|].
  apply andb_true_iff in H as [Hq H].
  destruct (IH (update st ev) H) as (-> & -> & ->).
  destruct ev; simpl in *; try discriminate; auto.
Qed.




(** No event changes what the user entered. *)
Lemma after_inputs (st : AppState) (t : list Event) :
  inputType (after st t) = inputType st
  /\ contractAddress (after st t) = contractAddress st
  /\ contractFile (after st t) = contractFile st
  /\ whitepaperFile (after st t) = whitepaperFile st.
Proof.
  revert st; induction t as [|ev t IH]; intros st; simpl; [auto|].
  destruct (IH (update st ev)) as (-> & -> & -> & ->).
  destruct ev; simpl; auto.
Qed.

Lemma requests_app (t1 t2 : list Event) :
  requests (t1 ++ t2) = requests t1 ++ requests t2.
Proof. apply flat_map_app. Qed.

Lemma networkCalls_app (t1 t2 : list Event) :
  networkCalls (t1 ++ t2) = networkCalls t1 ++ networkCalls t2.
Proof. apply filter_app. Qed.

Arguments bind : simpl never.

(** Case analysis on whatever a computation branches on. *)
Ltac branch :=
  match goal with
  | |- context [match ?x with _ => _ end] => destruct x eqn:?
  end.

(** Unfolding a computation into its trace and its outcome. *)
Ltac run :=
  repeat (rewrite ?trace_bind, ?outcome_bind;
          cbn [trace outcome fst snd ret throw emit await get app];
          try branch).

(** ** The explorer lookup *)

Lemma fetch_trace (w : World) (a : jsstring) :
  trace (fetchContractFromEtherscan w a) = [Fetch (explorerUrl w a)].
Proof.
  unfold fetchContractFromEtherscan. run; reflexivity.
Qed.
Arguments js : simpl never.
Arguments Str.ofN : simpl never.

(** Evaluating the lookup on an envelope of known shape. *)
Ltac reduce :=
  repeat (rewrite ?outcome_bind;
          cbn [outcome get snd JS.Get JS.isString JS.truthy JS.isArray
               JS.length JS.first JS.isUndefined negb orb andb throw ret
               Nat.eqb List.length]).

(** The goals left once the outcome is known. *)
Ltac settle :=
  repeat split; intros; try discriminate; eauto;
  try match goal with H : exists _, _ |- _ => destruct H; discriminate end.
(** The lookup once the status flag is not 0. *)
Ltac rest o :=
  destruct (JS.lookup (js "result") o) as [[| |[|]|n|[|c s]|[|x l]|o1]|];
  reduce; try solve [settle];
  [ destruct (roundsToZero n); reduce; settle
  | destruct x as [| |b|n|s|l'|o2]; reduce; try solve [settle];
    destruct (JS.lookup (js "SourceCode") o2) as [[| |b|n|[|c s]|l'|o3]|];
    reduce; change (js "") with (@nil N); cbn [Str.eqb]; reduce; settle ].

(** What the lookup makes of each reply of the explorer. *)
Lemma lookup_table (w : World) (address : jsstring) :
  let run := fetchContractFromEtherscan w address in
  match fetch w (explorerUrl w address) with
  | Threw e => outcome run = Threw e
  | Returned r =>
      if Response.ok r then
        match Response.json r with
        | Threw e => outcome run = Threw e
        | Returned data =>
            ((exists e, outcome run = Threw e) <->
             Envelope.statusFlagZero data || Envelope.payloadMalformed data
             || Envelope.sourceEmpty data = true)
            /\ (Envelope.statusFlagZero data = true ->
                exists m, outcome run = Threw (Failure.ApiError m)
                  /\ forall s, Envelope.result data = Some (JString s) ->
                               s <> [] -> m = s)
            /\ (Envelope.statusFlagZero data = false ->
                Envelope.payloadMalformed data = false ->
                Envelope.sourceEmpty data = true ->
                outcome run = Threw Failure.NotVerified)
            /\ (Envelope.statusFlagZero data || Envelope.payloadMalformed data
                || Envelope.sourceEmpty data = false ->
                exists v, Envelope.SourceCode data = Some v
                          /\ outcome run = Returned v)
        end
      else outcome run = Threw (Failure.HttpStatus (Response.status r))
  end.
Proof.
  cbv zeta. unfold fetchContractFromEtherscan.
  rewrite outcome_bind. cbn [outcome await snd].
  destruct (fetch w _) as [[ok st json]|e0]; [|reflexivity].
  destruct ok; [|reflexivity].
  cbn [Response.ok negb]. rewrite outcome_bind. cbn [outcome snd Response.json].
  destruct json as [data|e0]; [|reflexivity].
  unfold Envelope.statusFlagZero, Envelope.payloadMalformed,
    Envelope.sourceEmpty, Envelope.SourceCode, Envelope.first, Envelope.result.
  destruct data as [| |b|n|s|l|o]; try solve [reduce; settle].
  reduce.
  destruct (JS.lookup (js "status") o) as [status|]; reduce.
  - destruct (JS.isString status (js "0")); reduce.
    + destruct (JS.lookup (js "result") o) as [res|]; reduce.
      * repeat split; intros; try discriminate; eauto.
        eexists; split; [reflexivity|].
        intros s [= ->] Hs. destruct s; [contradiction | reflexivity].
      * repeat split; intros; try discriminate; eauto.
        eexists; split; [reflexivity | discriminate].
    + rest o.
  - rest o.
Qed.


(** ** The request to the model and the validation of its response *)

Lemma parseResponse_eq (w : World) (response : GenerateContentResponse.t) :
  parseResponse w response
  = match parsed response with
    | Some v => ([], Returned v)
    | None =>
        ([ConsoleError (js "Failed to parse Gemini response:") (raw response)],
         Threw Failure.InvalidResponse)
    end.
Proof.
  unfold parseResponse, parsed, raw.
  destruct (GenerateContentResponse.text response) as [t|];
    [destruct (JSON.parse (Str.trim t))|]; reflexivity.
Qed.

Lemma analyze_eq (w : World) (code : JSValue) (wp : option Whitepaper) :
  analyzeContractWithGemini w code wp
  = if noApiKey w then ([], Threw Failure.ConfigurationError)
    else
      let req := request w code wp in
      match generateContent w req with
      | Threw e => ([GenerateContent req], Threw e)
      | Returned response =>
          match parsed response with
          | Some v => ([GenerateContent req], Returned v)
          | None =>
              ([GenerateContent req;
                ConsoleError (js "Failed to parse Gemini response:")
                             (raw response)],
               Threw Failure.InvalidResponse)
          end
      end.
Proof.
  unfold analyzeContractWithGemini. destruct (noApiKey w); [reflexivity|].
  cbv zeta. unfold await, bind.
  destruct (generateContent w _) as [response|e]; [|reflexivity].
  rewrite parseResponse_eq. destruct (parsed response); reflexivity.
Qed.

(** ** The two halves of the form *)

Lemma resolveSource_trace (w : World) (st : AppState) :
  trace (resolveSource w st)
  = match inputType st with
    | address =>
        if Regex.test addressPattern (contractAddress st)
        then [SetLoadingMessage (js "Fetching contract from Etherscan...");
              Fetch (explorerUrl w (contractAddress st))]
        else []
    | file =>
        match contractFile st with
        | Some f => [SetLoadingMessage (js "Reading contract file...");
                     Read f AsText]
        | None => []
        end
    end.
Proof.
  unfold resolveSource.
  destruct (inputType st).
  - destruct (Regex.test _ _); [|reflexivity].
    cbn [negb]. rewrite trace_bind, fetch_trace. reflexivity.
  - destruct (contractFile st) as [f|]; [|reflexivity].
    rewrite !trace_bind. cbn. destruct (File.readAsText f); reflexivity.
Qed.

Lemma whitepaperPayload_trace (st : AppState) :
  trace (whitepaperPayload st)
  = match whitepaperFile st with
    | None => []
    | Some f =>
        SetLoadingMessage (js "Reading whitepaper...")
        :: match kindOf f with
           | IsTextFile => [Read f AsText]
           | IsPdf | IsDocx => [Read f AsDataURL]
           | Unsupported => []
           end
    end.
Proof.
  unfold whitepaperPayload, kindOf.
  destruct (whitepaperFile st) as [f|]; [|reflexivity].
  cbv zeta. rewrite trace_bind. cbn [trace outcome emit fst snd app].
  destruct (classify _ _); rewrite ?trace_bind; cbn;
    try destruct (File.readAsText f); try destruct (File.readAsDataURL f);
    reflexivity.
Qed.

Lemma resolveSource_quiet (w : World) (st : AppState) :
  forallb quiet (trace (resolveSource w st)) = true.
Proof.
  rewrite resolveSource_trace.
  destruct (inputType st);
    [destruct (Regex.test _ _) | destruct (contractFile st)]; reflexivity.
Qed.

Lemma whitepaperPayload_quiet (st : AppState) :
  forallb quiet (trace (whitepaperPayload st)) = true.
Proof.
  rewrite whitepaperPayload_trace.
  destruct (whitepaperFile st) as [f|]; [destruct (kindOf f)|]; reflexivity.
Qed.

Lemma analyze_quiet (w : World) (code : JSValue) (wp : option Whitepaper) :
  forallb quiet (trace (analyzeContractWithGemini w code wp)) = true.
Proof.
  rewrite analyze_eq. cbv zeta.
  destruct (noApiKey w); [reflexivity|].
  destruct (generateContent w _) as [response|e]; [|reflexivity].
  destruct (parsed response); reflexivity.
Qed.

(** ** The body of the [try] *)

(** The three stages run in order, and the first failure is the failure
    of the whole. *)
Lemma analysis_outcome (w : World) (st : AppState) :
  outcome (analysis w st)
  = match outcome (resolveSource w st) with
    | Threw e => Threw e
    | Returned code =>
        match outcome (whitepaperPayload st) with
        | Threw e => Threw e
        | Returned payload =>
            outcome (analyzeContractWithGemini w code payload)
        end
    end.
Proof.
  unfold analysis. rewrite outcome_bind.
  destruct (outcome (resolveSource w st)) as [code|e]; [|reflexivity].
  rewrite outcome_bind.
  destruct (outcome (whitepaperPayload st)) as [payload|e]; [|reflexivity].
  rewrite !outcome_bind. cbn [outcome emit snd].
  destruct (outcome (analyzeContractWithGemini w code payload)); reflexivity.
Qed.

Lemma analysis_trace (w : World) (st : AppState) :
  trace (analysis w st)
  = trace (resolveSource w st)
    ++ match outcome (resolveSource w st) with
       | Threw _ => []
       | Returned code =>
           trace (whitepaperPayload st)
           ++ match outcome (whitepaperPayload st) with
              | Threw _ => []
              | Returned payload =>
                  SetLoadingMessage (js "Analyzing with Gemini AI...")
                  :: trace (analyzeContractWithGemini w code payload)
                  ++ match outcome (analyzeContractWithGemini w code payload) with
                     | Threw _ => []
                     | Returned r => [SetResult (Some r)]
                     end
              end
       end.
Proof.
  unfold analysis. rewrite trace_bind. f_equal.
  destruct (outcome (resolveSource w st)) as [code|e]; [|reflexivity].
  rewrite trace_bind. f_equal.
  destruct (outcome (whitepaperPayload st)) as [payload|e]; [|reflexivity].
  rewrite !trace_bind. cbn [trace outcome emit fst snd app]. do 2 f_equal.
Qed.

(** Up to its last event the body leaves error, result and loading flag
    alone; on success its last event stores the result. *)
Lemma analysis_shape (w : World) (st : AppState) :
  exists q, forallb quiet q = true
    /\ trace (analysis w st)
       = q ++ match outcome (analysis w st) with
              | Returned r => [SetResult (Some r)]
              | Threw _ => []
              end.
Proof.
  rewrite analysis_trace, analysis_outcome.
  pose proof (resolveSource_quiet w st) as Q1.
  pose proof (whitepaperPayload_quiet st) as Q2.
  destruct (outcome (resolveSource w st)) as [code|e].
  2:{ exists (trace (resolveSource w st)). auto. }
  destruct (outcome (whitepaperPayload st)) as [payload|e].
  2:{ exists (trace (resolveSource w st) ++ trace (whitepaperPayload st)).
      rewrite forallb_app, Q1, Q2, !app_nil_r. auto. }
  pose proof (analyze_quiet w code payload) as Q3.
  exists (trace (resolveSource w st) ++ trace (whitepaperPayload st)
          ++ SetLoadingMessage (js "Analyzing with Gemini AI...")
             :: trace (analyzeContractWithGemini w code payload)).
  split.
  - rewrite !forallb_app. cbn [forallb quiet]. rewrite Q1, Q2, Q3. reflexivity.
  - rewrite <- !app_assoc. cbn [app].
    destruct (outcome (analyzeContractWithGemini w code payload));
      rewrite ?app_nil_r; reflexivity.
Qed.

(** ** The handler *)

Lemma handleAnalyze_eq (w : World) (st : AppState) :
  handleAnalyze w st
  = ([SetIsLoading true; SetError None; SetResult None]
     ++ trace (analysis w st)
     ++ match outcome (analysis w st) with
        | Threw e => [SetError (Some (shown e))]
        | Returned _ => []
        end
     ++ [SetIsLoading false; SetLoadingMessage (js "")],
     Returned tt).
Proof.
  unfold handleAnalyze.
  destruct (analysis w st) as [t [r|e]];
    unfold bind, emit, ret, tryCatch, finally; cbn;
    rewrite ?app_nil_r, <- ?app_assoc; reflexivity.
Qed.

(** The state a run ends in. *)
Lemma final_state (w : World) (st : AppState) :
  let final := after st (trace (handleAnalyze w st)) in
  isLoading final = false
  /\ loadingMessage final = js ""
  /\ match outcome (analysis w st) with
     | Returned r => result final = Some r /\ error final = None
     | Threw e => error final = Some (shown e) /\ result final = None
     end.
Proof.
  cbv zeta. rewrite handleAnalyze_eq. cbn [trace fst].
  destruct (analysis_shape w st) as (q & Hq & ->).
  rewrite !after_app.
  set (entered := after st [SetIsLoading true; SetError None; SetResult None]).
  destruct (after_quiet entered q Hq) as (He & Hr & _).
  set (s := after entered q) in *.
  assert (error s = None /\ result s = None) as [He' Hr'] by (split; assumption).
  clearbody s. clear He Hr.
  destruct (outcome (analysis w st)) as [r|e]; cbn; auto.
Qed.

Lemma resolveSource_requests (w : World) (st : AppState) :
  requests (trace (resolveSource w st)) = [].
Proof.
  rewrite resolveSource_trace.
  destruct (inputType st);
    [destruct (Regex.test _ _) | destruct (contractFile st)]; reflexivity.
Qed.

Lemma whitepaperPayload_requests (st : AppState) :
  requests (trace (whitepaperPayload st)) = [].
Proof.
  rewrite whitepaperPayload_trace.
  destruct (whitepaperFile st) as [f|]; [destruct (kindOf f)|]; reflexivity.
Qed.


(* ================================================================== *)
(** * The properties of the specification *)
(* ================================================================== *)

(** C1, as the program has it.  The validator trims the text of the
    response and parses it as JSON.  It returns the parsed value whole
    exactly when the text parses, whatever fields the value has: the
    shape of an AnalysisResult is asked of the model through the response
    schema and is not checked on the way back.  When the text does not
    parse (or there is no text) it logs the raw text and fails with
    InvalidResponse; it never returns a part of a result. *)
Theorem C1_parsed_value_returned_whole
    (w : World) (response : GenerateContentResponse.t) :
  (forall v, outcome (parseResponse w response) = Returned v
             <-> parsed response = Some v)
  /\ (forall v, parsed response = Some v ->
                parseResponse w response = ([], Returned v))
  /\ (parsed response = None ->
      parseResponse w response
      = ([ConsoleError (js "Failed to parse Gemini response:") (raw response)],
         Threw Failure.InvalidResponse)).
Proof.
  rewrite parseResponse_eq.
  destruct (parsed response) as [u|]; cbn; repeat split;
    intros; try discriminate; congruence.
Qed.

(** C1 fails as stated: the text of an empty object parses, so the
    validator returns it, although it has none of the six fields. *)
Lemma C1_missing_fields_returned :
  outcome (parseResponse Scenario.world
             (GenerateContentResponse.make (Some (js "{}"))))
  = Returned (JObject [])
  /\ Types.isAnalysisResult (JObject []) = false
  /\ existsb (Types.hasField (JObject [])) Types.fields = false.
Proof. repeat split. Qed.

Lemma whitepaperPayload_networkCalls (st : AppState) :
  networkCalls (trace (whitepaperPayload st)) = [].
Proof.
  rewrite whitepaperPayload_trace.
  destruct (whitepaperFile st) as [f|]; [destruct (kindOf f)|]; reflexivity.
Qed.

(** C8.  Without a credential (the variable is unset or empty) the
    request builder fails with ConfigurationError and emits nothing: it
    makes no external call.  In a run of the form no request reaches the
    model, and the only network call is the explorer lookup of source
    resolution, which comes before the builder; with an uploaded
    contract there is none at all. *)
Theorem C8_no_request_without_key (w : World) :
  API_KEY w = None \/ API_KEY w = Some [] ->
  (forall code wp,
      analyzeContractWithGemini w code wp
      = ([], Threw Failure.ConfigurationError))
  /\ (forall st, requests (trace (handleAnalyze w st)) = [])
  /\ (forall st, networkCalls (trace (handleAnalyze w st))
                 = networkCalls (trace (resolveSource w st)))
  /\ (forall st, inputType st = file ->
                 networkCalls (trace (handleAnalyze w st)) = []).
Proof.
  intros Hkey.
  assert (Hno : noApiKey w = true)
    by (unfold noApiKey; destruct Hkey as [-> | ->]; reflexivity).
  assert (Han : forall code wp,
             analyzeContractWithGemini w code wp
             = ([], Threw Failure.ConfigurationError)).
  { intros. rewrite analyze_eq, Hno. reflexivity. }
  assert (Hnet : forall st, networkCalls (trace (handleAnalyze w st))
                            = networkCalls (trace (resolveSource w st))).
  { intros st. rewrite handleAnalyze_eq. cbn [trace fst].
    rewrite !networkCalls_app, analysis_trace, networkCalls_app.
    cbn [app networkCalls filter isExternal isFetch isGenerateContent orb].
    assert (networkCalls
              match outcome (analysis w st) with
              | Returned _ => []
              | Threw e => [SetError (Some (shown e))]
              end = []) as ->
        by (destruct (outcome (analysis w st)); reflexivity).
    rewrite !app_nil_r.
    destruct (outcome (resolveSource w st)) as [code|e];
      [|rewrite app_nil_r; reflexivity].
    rewrite networkCalls_app, whitepaperPayload_networkCalls.
    destruct (outcome (whitepaperPayload st)) as [payload|e];
      [rewrite Han|]; cbn; rewrite app_nil_r; reflexivity. }
  repeat match goal with |- _ /\ _ => split end.
  - exact Han.
  - intros st. rewrite handleAnalyze_eq. cbn [trace fst].
    rewrite !requests_app, analysis_trace, requests_app, resolveSource_requests.
    cbn [app].
    assert (requests
              match outcome (analysis w st) with
              | Returned _ => []
              | Threw e => [SetError (Some (shown e))]
              end = []) as ->
        by (destruct (outcome (analysis w st)); reflexivity).
    destruct (outcome (resolveSource w st)) as [code|e]; [|reflexivity].
    rewrite requests_app, whitepaperPayload_requests.
    destruct (outcome (whitepaperPayload st)) as [payload|e]; [|reflexivity].
    rewrite Han. reflexivity.
  - exact Hnet.
  - intros st Hfile. rewrite Hnet, resolveSource_trace, Hfile.
    destruct (contractFile st); reflexivity.
Qed.

(** The world of the scenario, without its credential, is such a world. *)
Lemma C8_no_request_without_key_witness :
  (forall code wp,
      analyzeContractWithGemini Scenario.keyless code wp
      = ([], Threw Failure.ConfigurationError))
  /\ (forall st, requests (trace (handleAnalyze Scenario.keyless st)) = [])
  /\ (forall st, networkCalls (trace (handleAnalyze Scenario.keyless st))
                 = networkCalls (trace (resolveSource Scenario.keyless st)))
  /\ (forall st, inputType st = file ->
                 networkCalls (trace (handleAnalyze Scenario.keyless st)) = []).
Proof.
  apply (C8_no_request_without_key Scenario.keyless).
  left. reflexivity.
Defined.

(** C9.  Whatever two malformed responses of the model say, the
    validator fails with the same InvalidResponse, whose message is one
    fixed string: the raw text goes to the console and nowhere else, and
    the error the form shows for such a run is that fixed string. *)
Theorem C9_fixed_message
    (w1 w2 : World) (r1 r2 : GenerateContentResponse.t) :
  parsed r1 = None -> parsed r2 = None ->
  outcome (parseResponse w1 r1) = Threw (Error invalidAnalysis)
  /\ outcome (parseResponse w1 r1) = outcome (parseResponse w2 r2)
  /\ trace (parseResponse w1 r1)
     = [ConsoleError (js "Failed to parse Gemini response:") (raw r1)]
  /\ (forall st code payload,
        outcome (resolveSource w1 st) = Returned code ->
        outcome (whitepaperPayload st) = Returned payload ->
        noApiKey w1 = false ->
        generateContent w1 (request w1 code payload) = Returned r1 ->
        error (after st (trace (handleAnalyze w1 st))) = Some invalidAnalysis).
Proof.
  intros H1 H2. rewrite !parseResponse_eq, H1, H2.
  repeat split.
  intros st code payload Hc Hp Hk Hg.
  destruct (final_state w1 st) as (_ & _ & Hf).
  rewrite analysis_outcome, Hc, Hp, analyze_eq, Hk in Hf.
  cbv zeta in Hf. rewrite Hg, H1 in Hf. cbn in Hf. apply Hf.
Qed.

(** Two answers of the model that are not JSON: a refusal in prose, and
    an object cut short. *)
Lemma C9_fixed_message_witness :
  let w1 := Scenario.answering (Some (js "I cannot audit this contract.")) in
  let w2 := Scenario.answering (Some (js "{ score: 12 ")) in
  let r1 := GenerateContentResponse.make (Some (js "I cannot audit this contract.")) in
  let r2 := GenerateContentResponse.make (Some (js "{ score: 12 ")) in
  outcome (parseResponse w1 r1) = Threw (Error invalidAnalysis)
  /\ outcome (parseResponse w1 r1) = outcome (parseResponse w2 r2)
  /\ trace (parseResponse w1 r1)
     = [ConsoleError (js "Failed to parse Gemini response:") (raw r1)]
  /\ (forall st code payload,
        outcome (resolveSource w1 st) = Returned code ->
        outcome (whitepaperPayload st) = Returned payload ->
        noApiKey w1 = false ->
        generateContent w1 (request w1 code payload) = Returned r1 ->
        error (after st (trace (handleAnalyze w1 st))) = Some invalidAnalysis).
Proof.
  cbv zeta.
  apply (C9_fixed_message
           (Scenario.answering (Some (js "I cannot audit this contract.")))
           (Scenario.answering (Some (js "{ score: 12 ")))
           (GenerateContentResponse.make (Some (js "I cannot audit this contract.")))
           (GenerateContentResponse.make (Some (js "{ score: 12 "))));
    reflexivity.
Defined.




(** ** The scenario of the specification *)




(** ** The whitepaper *)

Lemma lowerUnit_idempotent (c : N) :
  Str.lowerUnit (Str.lowerUnit c) = Str.lowerUnit c.
Proof.
  set (upper := fun x => ((65 <=? x) && (x <=? 90))
                         || ((192 <=? x) && (x <=? 222) && negb (x =? 215))).
  assert (H : forall x, Str.lowerUnit x = if upper x then x + 32 else x)
    by reflexivity.
  rewrite (H c). destruct (upper c) eqn:E; [|rewrite H, E; reflexivity].
  rewrite H. destruct (upper (c + 32)) eqn:E2; [exfalso|reflexivity].
  revert E E2. unfold upper.
  repeat match goal with
         | |- context [?a <=? ?b] => destruct (N.leb_spec a b)
         | |- context [?a =? ?b] => destruct (N.eqb_spec a b)
         end; cbn [andb orb negb]; intros; try discriminate; lia.
Qed.

Lemma toLowerCase_idempotent (s : jsstring) :
  Str.toLowerCase (Str.toLowerCase s) = Str.toLowerCase s.
Proof.
  unfold Str.toLowerCase. rewrite map_map.
  apply map_ext. exact lowerUnit_idempotent.
Qed.





(** A file named doc.xyz with no declared type is refused by name. *)
Example doc_xyz_unsupported :
  whitepaperPayload (Scenario.withWhitepaper (Scenario.fileNamed "doc.xyz" ""))
  = ([SetLoadingMessage (js "Reading whitepaper...")],
     Threw (Error (js "Unsupported whitepaper file type: doc.xyz. Please use PDF, DOCX, TXT, or MD."))).
Proof. vm_compute. reflexivity. Qed.

Lemma split_no_separator (sep : N) (s : jsstring) :
  ~ In sep s -> Str.split sep s = [s].
Proof.
  induction s as [|x s IH]; intros H; cbn; [reflexivity|].
  destruct (N.eqb_spec x sep) as [->|_]; [elim H; left; reflexivity|].
  rewrite IH by (intros Hin; apply H; right; exact Hin). reflexivity.
Qed.

Lemma split_at_first (sep : N) (prefix rest : jsstring) :
  ~ In sep prefix ->
  Str.split sep (prefix ++ sep :: rest) = prefix :: Str.split sep rest.
Proof.
  induction prefix as [|x prefix IH]; intros H; cbn.
  - rewrite N.eqb_refl. reflexivity.
  - destruct (N.eqb_spec x sep) as [->|_]; [elim H; left; reflexivity|].
    rewrite IH by (intros Hin; apply H; right; exact Hin). reflexivity.
Qed.





(** A file named doc.txt with no declared type is read as plain text. *)
Example doc_txt_payload :
  whitepaperPayload (Scenario.withWhitepaper (Scenario.fileNamed "doc.txt" ""))
  = ([SetLoadingMessage (js "Reading whitepaper...");
      Read (Scenario.fileNamed "doc.txt" "") AsText],
     Returned (Some (mkWhitepaper (JString (js "hello")) (js "text/plain") true))).
Proof. vm_compute. reflexivity. Qed.

(** C10.  The name of the file is put in lower case before its
    extension is tested, so the classification of a file is that of the
    same file under its lower-case name, and a supported file yields the
    same payload under either name: REPORT.PDF is a pdf.  The declared
    MIME type is compared as it is: the type application/pdf in upper
    case is not recognised, so lower-casing the type can change the
    classification. *)
Theorem C10_extension_case_insensitive :
  (forall f, kindOf (renamed f (Str.toLowerCase (File.name f))) = kindOf f)
  /\ (forall f,
      kindOf f <> Unsupported ->
      outcome (whitepaperPayload
                 (Scenario.withWhitepaper
                    (renamed f (Str.toLowerCase (File.name f)))))
      = outcome (whitepaperPayload (Scenario.withWhitepaper f)))
  /\ (forall f, File.name f = js "REPORT.PDF" ->
                Str.startsWith (File.type f) (js "text/") = false ->
                kindOf f = IsPdf)
  /\ (kindOf (Scenario.fileNamed "paper.bin" "application/pdf") = IsPdf
      /\ kindOf (Scenario.fileNamed "paper.bin" "APPLICATION/PDF") = Unsupported)
  /\ ~ (forall f, kindOf (retyped f (Str.toLowerCase (File.type f))) = kindOf f).
Proof.
  assert (Hk : forall f,
             kindOf (renamed f (Str.toLowerCase (File.name f))) = kindOf f).
  { intros f. unfold kindOf, renamed. cbn [File.name File.type].
    rewrite toLowerCase_idempotent. reflexivity. }
  repeat match goal with |- _ /\ _ => split end.
  - exact Hk.
  - intros f Hs. specialize (Hk f).
    unfold whitepaperPayload, kindOf in *.
    cbn [whitepaperFile Scenario.withWhitepaper] in *. cbv zeta.
    rewrite !outcome_bind. cbn [outcome emit snd].
    rewrite Hk.
    destruct (classify _ (File.type f)); try contradiction;
      rewrite !outcome_bind; reflexivity.
  - intros f Hn Ht. unfold kindOf, classify. rewrite Hn, Ht. reflexivity.
  - reflexivity.
  - reflexivity.
  - intros H.
    specialize (H (Scenario.fileNamed "paper.bin" "APPLICATION/PDF")).
    discriminate H.
Qed.

(* ================================================================== *)
(** * Examples *)
(* ================================================================== *)

(** A well-formed analysis is parsed, conforms to [types.ts], and is what
    the run of the scenario stores. *)
Example analysis_accepted :
  match JSON.parse (Str.trim Scenario.analysisText) with
  | Some v =>
      Types.isAnalysisResult v = true
      /\ result (after Scenario.state
                   (trace (handleAnalyze
                             (Scenario.answering (Some Scenario.analysisText))
                             Scenario.state)))
         = Some v
  | None => False
  end.
Proof. vm_compute. split; reflexivity. Qed.

(** Trimming comes first: a no-break space and a byte order mark around
    an object are not JSON white space, and [trim] removes them. *)
Example trimmed_before_parsing :
  JSON.parse ([160] ++ js "{}" ++ [65279]) = None
  /\ JSON.parse (Str.trim ([160] ++ js "{}" ++ [65279])) = Some (JObject []).
Proof. vm_compute. split; reflexivity. Qed.

(** Texts [JSON.parse] rejects: a trailing comma, a leading zero, an
    unquoted key, two values, an unfinished literal, nothing at all. *)
Example syntax_errors :
  map JSON.parse
      [js "[1,]"; js "01"; js "{score: 1}"; js "1 2"; js "tru"; js ""]
  = [None; None; None; None; None; None].
Proof. vm_compute. reflexivity. Qed.

(** Numbers keep their exact value, and a repeated key takes the later
    value. *)
Example numbers_and_keys :
  JSON.parse (js "{" ++ Scenario.quoted "a" ++ js ": -2.50e3, "
              ++ Scenario.quoted "a" ++ js ": [0.125, 1e-400]}")
  = Some (JObject [(js "a",
                    JArray [JNumber (mkNumber false 125 (-3));
                            JNumber (mkNumber false 1 (-400))])])
  /\ roundsToZero (mkNumber false 1 (-400)) = true
  /\ roundsToZero (mkNumber false 125 (-3)) = false.
Proof. vm_compute. repeat split. Qed.

(** The two explorer examples of the specification: a rate-limited
    reply and an unverified contract. *)
Example rate_limited :
  let reply :=
    Response.make true 200
      (Returned (JObject [(js "status", JString (js "0"));
                          (js "message", JString (js "NOTOK"));
                          (js "result", JString (js "rate limited"))])) in
  let w := mkWorld [] [] None (fun _ => Returned reply)
             (generateContent Scenario.world)
             (Number_toString Scenario.world) (engineMessage Scenario.world) in
  outcome (fetchContractFromEtherscan w (contractAddress Scenario.state))
  = Threw (Error (js "Etherscan API Error: rate limited")).
Proof. vm_compute. reflexivity. Qed.

Example unverified :
  let reply :=
    Response.make true 200
      (Returned (JObject [(js "status", JString (js "1"));
                          (js "result",
                            JArray [JObject [(js "SourceCode", JString [])]])])) in
  let w := mkWorld [] [] None (fun _ => Returned reply)
             (generateContent Scenario.world)
             (Number_toString Scenario.world) (engineMessage Scenario.world) in
  outcome (fetchContractFromEtherscan w (contractAddress Scenario.state))
  = Threw Failure.NotVerified.
Proof. vm_compute. reflexivity. Qed.

(* ================================================================== *)
(** * Further properties of the form *)
(* ================================================================== *)

(** A run is determined by what source resolution and the whitepaper
    builder do. *)
Lemma handleAnalyze_ext (w : World) (st st' : AppState) :
  resolveSource w st = resolveSource w st' ->
  whitepaperPayload st = whitepaperPayload st' ->
  handleAnalyze w st = handleAnalyze w st'.
Proof.
  intros Hr Hp. unfold handleAnalyze, analysis. rewrite Hr, Hp. reflexivity.
Qed.

Lemma resolveSource_sameInputs (w : World) (st st' : AppState) :
  sameInputs st st' -> resolveSource w st = resolveSource w st'.
Proof.
  intros (Ht & Ha & Hf & _). unfold resolveSource. rewrite Ht, Ha, Hf.
  reflexivity.
Qed.

Lemma whitepaperPayload_sameInputs (st st' : AppState) :
  whitepaperFile st = whitepaperFile st' ->
  whitepaperPayload st = whitepaperPayload st'.
Proof. intros H. unfold whitepaperPayload. rewrite H. reflexivity. Qed.

(** Source resolution from an uploaded file. *)
Lemma resolveSource_file (w : World) (st : AppState) :
  inputType st = file ->
  resolveSource w st
  = match contractFile st with
    | None => ([], Threw (Error (js "Please upload a contract file.")))
    | Some f =>
        ([SetLoadingMessage (js "Reading contract file..."); Read f AsText],
         match File.readAsText f with
         | Some content => Returned (JString content)
         | None => Threw NotAnError
         end)
    end.
Proof.
  intros Hmode. unfold resolveSource. rewrite Hmode.
  destruct (contractFile st) as [f|]; [|reflexivity].
  unfold bind, emit, fileReader, await, ret.
  destruct (File.readAsText f); reflexivity.
Qed.

(** A run whose source resolution fails stops there. *)
Lemma run_of_failed_source (w : World) (st : AppState) (e : Thrown) :
  outcome (resolveSource w st) = Threw e ->
  trace (handleAnalyze w st)
  = [SetIsLoading true; SetError None; SetResult None]
    ++ trace (resolveSource w st)
    ++ [SetError (Some (shown e)); SetIsLoading false;
        SetLoadingMessage (js "")].
Proof.
  intros He. rewrite handleAnalyze_eq. cbn [trace fst].
  rewrite analysis_trace, analysis_outcome, He, app_nil_r. reflexivity.
Qed.

(** A run whose whitepaper fails stops there. *)
Lemma run_of_failed_whitepaper
    (w : World) (st : AppState) (code : JSValue) (e : Thrown) :
  outcome (resolveSource w st) = Returned code ->
  outcome (whitepaperPayload st) = Threw e ->
  trace (handleAnalyze w st)
  = [SetIsLoading true; SetError None; SetResult None]
    ++ trace (resolveSource w st) ++ trace (whitepaperPayload st)
    ++ [SetError (Some (shown e)); SetIsLoading false;
        SetLoadingMessage (js "")].
Proof.
  intros Hc He. rewrite handleAnalyze_eq. cbn [trace fst].
  rewrite analysis_trace, analysis_outcome, Hc, He, app_nil_r, <- app_assoc.
  reflexivity.
Qed.

(** A run that reaches the model. *)
Lemma run_with_model
    (w : World) (st : AppState) (code : JSValue) (p : option Whitepaper) :
  outcome (resolveSource w st) = Returned code ->
  outcome (whitepaperPayload st) = Returned p ->
  trace (handleAnalyze w st)
  = [SetIsLoading true; SetError None; SetResult None]
    ++ trace (resolveSource w st) ++ trace (whitepaperPayload st)
    ++ SetLoadingMessage (js "Analyzing with Gemini AI...")
       :: trace (analyzeContractWithGemini w code p)
    ++ match outcome (analyzeContractWithGemini w code p) with
       | Returned r => [SetResult (Some r)]
       | Threw e => [SetError (Some (shown e))]
       end
    ++ [SetIsLoading false; SetLoadingMessage (js "")].
Proof.
  intros Hc Hp. rewrite handleAnalyze_eq. cbn [trace fst].
  rewrite analysis_trace, analysis_outcome, Hc, Hp.
  rewrite <- !app_assoc. cbn [app]. do 4 f_equal. rewrite <- !app_assoc.
  f_equal.
  destruct (outcome (analyzeContractWithGemini w code p)); reflexivity.
Qed.

(** X1.  In FILE mode without a contract file the run fails at once
    with the request to upload one: it consists of state updates only,
    whatever the address field holds and whether or not a whitepaper
    was chosen; nothing is read and nothing is sent. *)
Theorem upload_required (w : World) (st : AppState) :
  inputType st = file -> contractFile st = None ->
  handleAnalyze w st
  = ([SetIsLoading true; SetError None; SetResult None;
      SetError (Some (js "Please upload a contract file."));
      SetIsLoading false; SetLoadingMessage (js "")],
     Returned tt)
  /\ error (after st (trace (handleAnalyze w st)))
     = Some (js "Please upload a contract file.")
  /\ result (after st (trace (handleAnalyze w st))) = None.
Proof.
  intros Hmode Hfile.
  assert (Hr : resolveSource w st
               = ([], Threw (Error (js "Please upload a contract file.")))).
  { rewrite (resolveSource_file w st Hmode), Hfile. reflexivity. }
  assert (Hrun : handleAnalyze w st
    = ([SetIsLoading true; SetError None; SetResult None;
        SetError (Some (js "Please upload a contract file."));
        SetIsLoading false; SetLoadingMessage (js "")],
       Returned tt)).
  { rewrite (run_eta (handleAnalyze w st)). f_equal.
    - rewrite (run_of_failed_source w st
                 (Error (js "Please upload a contract file.")))
        by (rewrite Hr; reflexivity).
      rewrite Hr. reflexivity.
    - rewrite handleAnalyze_eq. reflexivity. }
  rewrite Hrun. repeat split.
Qed.

(** The form in FILE mode with a whitepaper and no contract file. *)
Lemma upload_required_witness :
  handleAnalyze Scenario.world
    (Sample.upload None (Some (Scenario.fileNamed "doc.txt" "")))
  = ([SetIsLoading true; SetError None; SetResult None;
      SetError (Some (js "Please upload a contract file."));
      SetIsLoading false; SetLoadingMessage (js "")],
     Returned tt).
Proof.
  exact (proj1 (upload_required Scenario.world
                  (Sample.upload None (Some (Scenario.fileNamed "doc.txt" "")))
                  eq_refl eq_refl)).
Defined.

Lemma analyze_trace (w : World) (code : JSValue) (p : option Whitepaper) :
  trace (analyzeContractWithGemini w code p)
  = if noApiKey w then []
    else GenerateContent (request w code p)
         :: match generateContent w (request w code p) with
            | Returned r =>
                match parsed r with
                | Some _ => []
                | None => [ConsoleError (js "Failed to parse Gemini response:")
                                        (raw r)]
                end
            | Threw _ => []
            end.
Proof.
  rewrite analyze_eq. cbv zeta. destruct (noApiKey w); [reflexivity|].
  destruct (generateContent w _) as [r|e]; [destruct (parsed r)|]; reflexivity.
Qed.

(** Writing a trace out, whatever the run branched on. *)
Ltac explicit :=
  rewrite ?resolveSource_trace, ?whitepaperPayload_trace, ?analyze_trace;
  repeat branch; try reflexivity.

Lemma whitepaperPayload_no_fetch (st : AppState) :
  filter isFetch (trace (whitepaperPayload st)) = [].
Proof. explicit. Qed.

Lemma analyze_no_fetch (w : World) (code : JSValue) (p : option Whitepaper) :
  filter isFetch (trace (analyzeContractWithGemini w code p)) = [].
Proof. explicit. Qed.

Lemma analyze_requests (w : World) (code : JSValue) (p : option Whitepaper) :
  requests (trace (analyzeContractWithGemini w code p))
  = if noApiKey w then [] else [request w code p].
Proof. explicit. Qed.

Lemma handled_requests (r : Result JSValue) :
  requests
    match r with
    | Returned v => [SetResult (Some v)]
    | Threw e => [SetError (Some (shown e))]
    end = []
  /\ filter isFetch
       match r with
       | Returned v => [SetResult (Some v)]
       | Threw e => [SetError (Some (shown e))]
       end = []
  /\ filter isRead
       match r with
       | Returned v => [SetResult (Some v)]
       | Threw e => [SetError (Some (shown e))]
       end = [].
Proof. destruct r; repeat split. Qed.

(** The requests of a run that reaches the model. *)
Lemma requests_with_model
    (w : World) (st : AppState) (code : JSValue) (p : option Whitepaper) :
  outcome (resolveSource w st) = Returned code ->
  outcome (whitepaperPayload st) = Returned p ->
  requests (trace (handleAnalyze w st))
  = if noApiKey w then [] else [request w code p].
Proof.
  intros Hc Hp. rewrite (run_with_model w st code p Hc Hp).
  rewrite !requests_app, resolveSource_requests, whitepaperPayload_requests.
  cbn [app requests flat_map].
  rewrite !requests_app, analyze_requests.
  rewrite (proj1 (handled_requests _)).
  cbn [requests flat_map app]. rewrite app_nil_r. reflexivity.
Qed.

(** X2.  In FILE mode the uploaded contract is read as text and its
    text is what the model gets, verbatim between the fences of the
    second part; the explorer is not contacted. *)
Theorem uploaded_source_reaches_model
    (w : World) (st : AppState) (f : File.t) (content : jsstring)
    (p : option Whitepaper) :
  inputType st = file -> contractFile st = Some f ->
  File.readAsText f = Some content ->
  outcome (whitepaperPayload st) = Returned p ->
  noApiKey w = false ->
  requests (trace (handleAnalyze w st)) = [request w (JString content) p]
  /\ GenerateContentParameters.contents (request w (JString content) p)
     = Part.text promptIntro :: Part.text (fenced content)
       :: whitepaperParts w p
  /\ filter isFetch (trace (handleAnalyze w st)) = [].
Proof.
  intros Hmode Hfile Hread Hp Hkey.
  assert (Hr : resolveSource w st
               = ([SetLoadingMessage (js "Reading contract file...");
                   Read f AsText], Returned (JString content))).
  { rewrite (resolveSource_file w st Hmode), Hfile, Hread. reflexivity. }
  assert (Hc : outcome (resolveSource w st) = Returned (JString content))
    by (rewrite Hr; reflexivity).
  repeat split.
  - rewrite (requests_with_model w st _ p Hc Hp), Hkey. reflexivity.
  - rewrite (run_with_model w st _ p Hc Hp).
    rewrite !filter_app, Hr, whitepaperPayload_no_fetch.
    cbn [trace fst filter isFetch app].
    rewrite !filter_app, analyze_no_fetch.
    rewrite (proj1 (proj2 (handled_requests _))). reflexivity.
Qed.

(** The contract file of the samples, with no whitepaper. *)
Lemma uploaded_source_reaches_model_witness :
  requests (trace (handleAnalyze Scenario.world
                     (Sample.upload (Some Sample.contract) None)))
  = [request Scenario.world (JString (js "contract T{}")) None]
  /\ GenerateContentParameters.contents
       (request Scenario.world (JString (js "contract T{}")) None)
     = Part.text promptIntro :: Part.text (fenced (js "contract T{}"))
       :: whitepaperParts Scenario.world None
  /\ filter isFetch
       (trace (handleAnalyze Scenario.world
                 (Sample.upload (Some Sample.contract) None))) = [].
Proof.
  exact (uploaded_source_reaches_model Scenario.world
           (Sample.upload (Some Sample.contract) None) Sample.contract
           (js "contract T{}") None eq_refl eq_refl eq_refl eq_refl eq_refl).
Defined.

(** X3.  A contract file that cannot be read ends the run with the
    handler's own message, since the reader rejects with an event and
    not with an Error: the run is the clearing, the phase label, the one
    read, and the failure; the whitepaper is not read and nothing is
    sent. *)
Theorem unreadable_contract_file (w : World) (st : AppState) (f : File.t) :
  inputType st = file -> contractFile st = Some f ->
  File.readAsText f = None ->
  handleAnalyze w st
  = ([SetIsLoading true; SetError None; SetResult None;
      SetLoadingMessage (js "Reading contract file..."); Read f AsText;
      SetError (Some (js "An unknown error occurred."));
      SetIsLoading false; SetLoadingMessage (js "")],
     Returned tt).
Proof.
  intros Hmode Hfile Hread.
  assert (Hr : resolveSource w st
               = ([SetLoadingMessage (js "Reading contract file...");
                   Read f AsText], Threw NotAnError)).
  { rewrite (resolveSource_file w st Hmode), Hfile, Hread. reflexivity. }
  rewrite (run_eta (handleAnalyze w st)). f_equal.
  - rewrite (run_of_failed_source w st NotAnError)
      by (rewrite Hr; reflexivity).
    rewrite Hr. reflexivity.
  - rewrite handleAnalyze_eq. reflexivity.
Qed.

(** The unreadable file of the samples, with a whitepaper chosen. *)
Lemma unreadable_contract_file_witness :
  handleAnalyze Scenario.world
    (Sample.upload (Some Sample.unreadable)
       (Some (Scenario.fileNamed "doc.txt" "")))
  = ([SetIsLoading true; SetError None; SetResult None;
      SetLoadingMessage (js "Reading contract file...");
      Read Sample.unreadable AsText;
      SetError (Some (js "An unknown error occurred."));
      SetIsLoading false; SetLoadingMessage (js "")],
     Returned tt).
Proof.
  exact (unreadable_contract_file Scenario.world
           (Sample.upload (Some Sample.unreadable)
              (Some (Scenario.fileNamed "doc.txt" "")))
           Sample.unreadable eq_refl eq_refl eq_refl).
Defined.

(** X4.  The two ways of giving the contract do not mix.  In FILE mode
    the address field has no effect on the run and the explorer is
    never contacted; in ADDRESS mode the chosen contract file has no
    effect on the run and the only file a run can read is the
    whitepaper. *)
Theorem input_modes_do_not_mix (w : World) (st : AppState) :
  (inputType st = file ->
   (forall a, handleAnalyze w (setContractAddress st a) = handleAnalyze w st)
   /\ filter isFetch (trace (handleAnalyze w st)) = [])
  /\ (inputType st = address ->
      (forall f, handleAnalyze w (setContractFile st f) = handleAnalyze w st)
      /\ filter isRead (trace (resolveSource w st)) = []).
Proof.
  split; intros Hmode.
  - split.
    + intros a. apply handleAnalyze_ext; [|reflexivity].
      unfold resolveSource. cbn [inputType setContractAddress contractFile].
      rewrite Hmode. reflexivity.
    + rewrite handleAnalyze_eq. cbn [trace fst].
      rewrite !filter_app, analysis_trace, !filter_app.
      rewrite resolveSource_trace, Hmode.
      assert (filter isFetch
                match outcome (analysis w st) with
                | Returned _ => []
                | Threw e => [SetError (Some (shown e))]
                end = []) as ->
          by (destruct (outcome (analysis w st)); reflexivity).
      destruct (outcome (resolveSource w st)) as [code|e].
      * rewrite filter_app, whitepaperPayload_no_fetch.
        destruct (outcome (whitepaperPayload st)) as [p|e].
        -- cbn [filter isFetch app]. rewrite filter_app, analyze_no_fetch.
           destruct (contractFile st);
             destruct (outcome (analyzeContractWithGemini w code p));
             reflexivity.
        -- destruct (contractFile st); reflexivity.
      * destruct (contractFile st); reflexivity.
  - split.
    + intros f. apply handleAnalyze_ext; [|reflexivity].
      unfold resolveSource. cbn [inputType setContractFile contractAddress].
      rewrite Hmode. reflexivity.
    + rewrite resolveSource_trace, Hmode.
      destruct (Regex.test _ _); reflexivity.
Qed.

(* ================================================================== *)
(** * The order of a run *)
(* ================================================================== *)








Lemma entered (st : AppState) (q : list Event) :
  forallb quiet q = true ->
  let s := after (after st [SetIsLoading true; SetError None; SetResult None])
                 q in
  isLoading s = true /\ error s = None /\ result s = None.
Proof.
  intros Hq. cbv zeta.
  destruct (after_quiet
              (after st [SetIsLoading true; SetError None; SetResult None])
              q Hq) as (-> & -> & ->).
  repeat split.
Qed.


Lemma analysis_ext (w : World) (st st' : AppState) :
  sameInputs st st' -> analysis w st = analysis w st'.
Proof.
  intros H. unfold analysis.
  rewrite (resolveSource_sameInputs w st st' H).
  rewrite (whitepaperPayload_sameInputs st st' (proj2 (proj2 (proj2 H)))).
  reflexivity.
Qed.

(** The page a run leaves, cell by cell. *)
Lemma final_state_eq (w : World) (st : AppState) :
  after st (trace (handleAnalyze w st))
  = mkState (inputType st) (contractAddress st) (contractFile st)
      (whitepaperFile st) false (js "")
      match outcome (analysis w st) with
      | Returned _ => None
      | Threw e => Some (shown e)
      end
      match outcome (analysis w st) with
      | Returned r => Some r
      | Threw _ => None
      end.
Proof.
  pose proof (final_state w st) as H. cbv zeta in H.
  pose proof (after_inputs st (trace (handleAnalyze w st))) as I.
  destruct (after st (trace (handleAnalyze w st))).
  cbn [inputType contractAddress contractFile whitepaperFile isLoading
       loadingMessage error result] in *.
  destruct H as (-> & -> & H), I as (-> & -> & -> & ->).
  destruct (outcome (analysis w st)); destruct H as [-> ->]; reflexivity.
Qed.

(** X6.  A run depends on the four inputs of the form only: two forms
    with the same mode, address and files run alike and end as the same
    page, whatever error, report or loading label an earlier run left
    in either. *)
Theorem run_depends_on_inputs_only (w : World) (st st' : AppState) :
  sameInputs st st' ->
  handleAnalyze w st = handleAnalyze w st'
  /\ after st (trace (handleAnalyze w st))
     = after st' (trace (handleAnalyze w st')).
Proof.
  intros H.
  assert (Hrun : handleAnalyze w st = handleAnalyze w st').
  { apply handleAnalyze_ext.
    - apply resolveSource_sameInputs, H.
    - apply whitepaperPayload_sameInputs, H. }
  split; [exact Hrun|].
  rewrite !final_state_eq, (analysis_ext w st st' H).
  destruct H as (-> & -> & -> & ->). reflexivity.
Qed.

(** The form of the scenario, fresh and as an earlier run left it. *)
Lemma run_depends_on_inputs_only_witness :
  handleAnalyze Scenario.world Scenario.state
  = handleAnalyze Scenario.world Sample.stale
  /\ after Scenario.state (trace (handleAnalyze Scenario.world Scenario.state))
     = after Sample.stale (trace (handleAnalyze Scenario.world Sample.stale)).
Proof.
  apply (run_depends_on_inputs_only Scenario.world Scenario.state
           Sample.stale).
  repeat split.
Defined.

(** X7.  Submitting a second time, with nothing changed in the form or
    in the world, runs as the first time and leaves the page as the
    first run left it. *)
Theorem resubmitting_changes_nothing (w : World) (st : AppState) :
  let final := after st (trace (handleAnalyze w st)) in
  handleAnalyze w final = handleAnalyze w st
  /\ after final (trace (handleAnalyze w final)) = final.
Proof.
  cbv zeta.
  assert (H : sameInputs (after st (trace (handleAnalyze w st))) st)
    by apply after_inputs.
  split.
  - apply handleAnalyze_ext.
    + apply resolveSource_sameInputs, H.
    + apply whitepaperPayload_sameInputs, H.
  - rewrite (final_state_eq w (after _ _)), (analysis_ext w _ st H).
    rewrite final_state_eq. reflexivity.
Qed.

Lemma late_failure (w : World) (st : AppState) (f : File.t) :
  whitepaperFile st = Some f -> kindOf f = Unsupported ->
  whitepaperPayload st
  = ([SetLoadingMessage (js "Reading whitepaper...")],
     Threw (Failure.UnsupportedFileType (File.name f))).
Proof.
  intros Hf Hk. unfold whitepaperPayload. rewrite Hf. cbv zeta.
  unfold kindOf in Hk. rewrite Hk. reflexivity.
Qed.

(** X8.  An unsupported whitepaper is found out only after the contract
    source was obtained: the run reads and calls what obtaining the
    source reads and calls (in ADDRESS mode the explorer is still
    asked), sends nothing to the model, and shows the failure of the
    source when there is one, the refusal of the whitepaper otherwise. *)
Theorem whitepaper_checked_after_source
    (w : World) (st : AppState) (f : File.t) :
  whitepaperFile st = Some f -> kindOf f = Unsupported ->
  let t := trace (handleAnalyze w st) in
  networkCalls t = networkCalls (trace (resolveSource w st))
  /\ filter isRead t = filter isRead (trace (resolveSource w st))
  /\ error (after st t)
     = Some match outcome (resolveSource w st) with
            | Threw e => shown e
            | Returned _ =>
                js "Unsupported whitepaper file type: " ++ File.name f
                ++ js ". Please use PDF, DOCX, TXT, or MD."
            end.
Proof.
  intros Hf Hk. cbv zeta.
  pose proof (late_failure w st f Hf Hk) as Hp.
  rewrite final_state_eq, analysis_outcome. cbn [error].
  rewrite handleAnalyze_eq. cbn [trace fst].
  rewrite analysis_trace, analysis_outcome, Hp. cbn [trace outcome fst snd].
  unfold networkCalls. rewrite !filter_app.
  destruct (outcome (resolveSource w st)) as [code|e];
    cbn [filter isExternal isFetch isGenerateContent isRead orb app];
    rewrite ?app_nil_r; auto.
Qed.

(** The scenario with a whitepaper named [doc.xyz]. *)
Lemma whitepaper_checked_after_source_witness :
  networkCalls
    (trace (handleAnalyze Scenario.world
              (Scenario.withWhitepaper (Scenario.fileNamed "doc.xyz" ""))))
  = [Fetch (explorerUrl Scenario.world (contractAddress Scenario.state))].
Proof.
  exact (proj1 (whitepaper_checked_after_source Scenario.world
                  (Scenario.withWhitepaper (Scenario.fileNamed "doc.xyz" ""))
                  (Scenario.fileNamed "doc.xyz" "") eq_refl eq_refl)).
Defined.

(** Case analysis that keeps no equation. *)
Ltac cases :=
  match goal with
  | |- context [match ?x with _ => _ end] => destruct x
  end.

(** Counting the events of an explicit trace. *)
Ltac tally :=
  cbn [networkCalls filter isExternal isFetch isGenerateContent isRead orb
       app List.length];
  (repeat split; [lia..|]);
  let g := fresh "g" in let H := fresh "H" in
  intros g H; cbn [In app] in H; intuition discriminate.

(** X9.  A run calls each service at most once, the explorer before the
    model; it reads at most two files, and never as an array buffer,
    the third mode of the reader. *)
Theorem call_budget (w : World) (st : AppState) :
  let t := trace (handleAnalyze w st) in
  networkCalls t = (filter isFetch t ++ filter isGenerateContent t)%list
  /\ (List.length (filter isFetch t) <= 1)%nat
  /\ (List.length (filter isGenerateContent t) <= 1)%nat
  /\ (List.length (filter isRead t) <= 2)%nat
  /\ forall f, ~ In (Read f AsArrayBuffer) t.
Proof.
  cbv zeta. rewrite handleAnalyze_eq. cbn [trace fst].
  rewrite analysis_trace.
  rewrite resolveSource_trace, whitepaperPayload_trace.
  destruct (outcome (resolveSource w st)) as [code|e].
  2:{ repeat cases; tally. }
  destruct (outcome (whitepaperPayload st)) as [p|e].
  2:{ repeat cases; tally. }
  rewrite analyze_trace.
  repeat cases; tally.
Qed.

(* ================================================================== *)
(** * The whitepaper *)
(* ================================================================== *)

Lemma whitepaperPayload_outcome (st : AppState) :
  outcome (whitepaperPayload st)
  = match whitepaperFile st with
    | None => Returned None
    | Some f =>
        match kindOf f with
        | IsTextFile =>
            match File.readAsText f with
            | Some text =>
                Returned (Some (mkWhitepaper (JString text)
                                  (Str.orElse (File.type f) (js "text/plain"))
                                  true))
            | None => Threw NotAnError
            end
        | IsPdf =>
            match File.readAsDataURL f with
            | Some dataUrl =>
                Returned (Some (mkWhitepaper (base64Data dataUrl)
                                  (js "application/pdf") false))
            | None => Threw NotAnError
            end
        | IsDocx =>
            match File.readAsDataURL f with
            | Some dataUrl =>
                Returned (Some (mkWhitepaper (base64Data dataUrl)
                                  docxMimeType false))
            | None => Threw NotAnError
            end
        | Unsupported => Threw (Failure.UnsupportedFileType (File.name f))
        end
    end.
Proof.
  unfold whitepaperPayload, kindOf.
  destruct (whitepaperFile st) as [f|]; [|reflexivity].
  cbv zeta. rewrite outcome_bind. cbn [outcome emit snd].
  destruct (classify _ _);
    repeat (rewrite outcome_bind; cbn [outcome emit snd fileReader await]);
    try destruct (File.readAsText f); try destruct (File.readAsDataURL f);
    reflexivity.
Qed.

(** The first piece of a split has no separator, and is the whole
    string or what comes before its first separator. *)
Lemma split_shape (sep : N) (s : jsstring) :
  exists piece pieces,
    Str.split sep s = piece :: pieces /\ ~ In sep piece
    /\ ((s = piece /\ pieces = [])
        \/ exists rest, s = piece ++ sep :: rest
                        /\ pieces = Str.split sep rest).
Proof.
  induction s as [|x s (piece & pieces & Hs & Hp & IH)]; cbn [Str.split].
  - exists [], []. repeat split; auto.
  - destruct (N.eqb_spec x sep) as [->|Hx].
    + exists [], (Str.split sep s). repeat split; auto.
      right. exists s. auto.
    + rewrite Hs. exists (x :: piece), pieces. repeat split.
      * intros [H|H]; [congruence | exact (Hp H)].
      * destruct IH as [[-> ->]|(rest & -> & ->)]; [left; auto|].
        right. exists rest. auto.
Qed.

(** X10.  What is taken from a data URL is its second piece between
    commas.  A data URL with no comma gives undefined; with a comma, the
    data is what lies between the first comma and the second one or the
    end, so it never holds a comma, and whatever follows a second comma
    is dropped. *)
Theorem base64Data_is_second_piece (dataUrl : jsstring) :
  (~ In 44 dataUrl -> base64Data dataUrl = JUndefined)
  /\ (forall prefix rest,
        ~ In 44 prefix -> dataUrl = prefix ++ 44 :: rest ->
        exists piece,
          base64Data dataUrl = JString piece /\ ~ In 44 piece
          /\ (rest = piece \/ exists more, rest = piece ++ 44 :: more)).
Proof.
  unfold base64Data. split.
  - intros H. rewrite split_no_separator by exact H. reflexivity.
  - intros prefix rest Hp ->. rewrite split_at_first by exact Hp.
    destruct (split_shape 44 rest) as (piece & pieces & -> & Hpiece & H).
    exists piece. cbn [nth_error]. repeat split; [exact Hpiece|].
    destruct H as [[-> _]|(more & -> & _)]; [left; reflexivity|].
    right. exists more. reflexivity.
Qed.

(** X11.  What the builder of the payload hands on.  There is a payload
    exactly when a whitepaper was chosen.  A text payload is the text of
    the file as read, under a type that is never empty; a binary payload
    is the second piece of the data URL of the file, under one of the two
    fixed types, the one of its branch, whatever type the file
    declares. *)
Theorem payload_invariant (st : AppState) (p : option Whitepaper) :
  outcome (whitepaperPayload st) = Returned p ->
  match p with
  | None => whitepaperFile st = None
  | Some wp =>
      exists f, whitepaperFile st = Some f
      /\ if isText wp
         then kindOf f = IsTextFile
              /\ (exists text, File.readAsText f = Some text
                               /\ data wp = JString text)
              /\ mimeType wp <> []
              /\ (File.type f <> [] -> mimeType wp = File.type f)
         else (exists dataUrl, File.readAsDataURL f = Some dataUrl
                               /\ data wp = base64Data dataUrl)
              /\ ((kindOf f = IsPdf /\ mimeType wp = js "application/pdf")
                  \/ (kindOf f = IsDocx /\ mimeType wp = docxMimeType))
  end.
Proof.
  rewrite whitepaperPayload_outcome.
  destruct (whitepaperFile st) as [f|]; [|intros [= <-]; reflexivity].
  destruct (kindOf f) eqn:Hk.
  - destruct (File.readAsText f) as [text|] eqn:Hr; [|discriminate].
    intros [= <-]. exists f. cbn [isText data mimeType].
    repeat split; eauto.
    + destruct (File.type f); [vm_compute|cbn [Str.orElse]]; discriminate.
    + destruct (File.type f); [congruence | reflexivity].
  - destruct (File.readAsDataURL f) as [u|] eqn:Hr; [|discriminate].
    intros [= <-]. exists f. cbn [isText data mimeType].
    repeat split; eauto.
  - destruct (File.readAsDataURL f) as [u|] eqn:Hr; [|discriminate].
    intros [= <-]. exists f. cbn [isText data mimeType].
    repeat split; eauto.
  - discriminate.
Qed.

(** A pdf of the samples whose data URL has no comma. *)
Lemma payload_invariant_witness :
  exists f, whitepaperFile (Sample.upload None (Some Sample.emptyPdf)) = Some f
  /\ (exists dataUrl, File.readAsDataURL f = Some dataUrl
                      /\ JUndefined = base64Data dataUrl)
  /\ ((kindOf f = IsPdf /\ js "application/pdf" = js "application/pdf")
      \/ (kindOf f = IsDocx /\ js "application/pdf" = docxMimeType)).
Proof.
  exact (payload_invariant (Sample.upload None (Some Sample.emptyPdf))
           (Some (mkWhitepaper JUndefined (js "application/pdf") false))
           eq_refl).
Defined.



(* ================================================================== *)
(** * The replies of the explorer *)
(* ================================================================== *)

(** The lookup on a reply that has a body. *)
Lemma lookup_body (w : World) (a : jsstring) (r : Response.t)
    (data : JSValue) :
  fetch w (explorerUrl w a) = Returned r ->
  Response.ok r = true -> Response.json r = Returned data ->
  outcome (fetchContractFromEtherscan w a)
  = outcome
      (status <- get w data (js "status") ;;
       if JS.isString status (js "0") then
         result <- get w data (js "result") ;;
         throw (Error (js "Etherscan API Error: "
                       ++ show w (if JS.truthy result then result
                                  else JString (js "An unknown error occurred with the Etherscan API."))))
       else
         result <- get w data (js "result") ;;
         if negb (JS.truthy result) || negb (JS.isArray result)
            || Nat.eqb (JS.length result) 0
         then throw Failure.UnexpectedFormat
         else
           SourceCode <- get w (JS.first result) (js "SourceCode") ;;
           if JS.isString SourceCode (js "") || JS.isUndefined SourceCode
           then throw Failure.NotVerified
           else ret SourceCode).
Proof.
  intros H1 H2 H3. unfold fetchContractFromEtherscan. cbv zeta.
  rewrite outcome_bind. cbn [outcome await snd]. rewrite H1, H2.
  cbn [negb]. rewrite outcome_bind. cbn [outcome snd]. rewrite H3.
  reflexivity.
Qed.



(** X14.  Two replies make the lookup fail with an error of the engine,
    whose text is then what the page shows in place of a message of the
    program: a body that is [null], of which the status cannot be read,
    and a result list whose first element is [null], of which the
    source cannot be read. *)
Theorem engine_error_reaches_user
    (w : World) (a : jsstring) (r : Response.t) (data : JSValue) :
  fetch w (explorerUrl w a) = Returned r ->
  Response.ok r = true -> Response.json r = Returned data ->
  (nullish data = true ->
   outcome (fetchContractFromEtherscan w a)
   = Threw (Error (engineMessage w (ReadOfNullish data (js "status")))))
  /\ (Envelope.statusFlagZero data = false ->
      forall x, Envelope.first data = Some x -> nullish x = true ->
      outcome (fetchContractFromEtherscan w a)
      = Threw (Error (engineMessage w (ReadOfNullish x (js "SourceCode"))))).
Proof.
  intros H1 H2 H3. rewrite (lookup_body w a r data H1 H2 H3). split.
  - intros Hn. destruct data; try discriminate; reflexivity.
  - unfold Envelope.statusFlagZero, Envelope.first, Envelope.result.
    intros H0 x Hx Hn.
    destruct data as [| |b|n|s|l|o]; try discriminate.
    reduce.
    destruct (JS.lookup (js "status") o) as [status|]; reduce;
      [rewrite H0; reduce|].
    all: destruct (JS.lookup (js "result") o) as [[| |b|n|s|[|y l]|o1]|];
      try discriminate.
    all: injection Hx as ->; reduce.
    all: destruct x; try discriminate; reflexivity.
Qed.

(** An explorer whose result list holds [null]. *)
Lemma engine_error_reaches_user_witness :
  outcome (fetchContractFromEtherscan
             (Sample.exploring (Sample.reply Sample.hollow)) [])
  = Threw (Error (js "engine error")).
Proof.
  exact (proj2 (engine_error_reaches_user
                  (Sample.exploring (Sample.reply Sample.hollow)) []
                  (Response.make true 200 (Returned Sample.hollow))
                  Sample.hollow eq_refl eq_refl eq_refl)
           eq_refl JNull eq_refl eq_refl).
Defined.

(** X15.  A reply whose status flag is not 0 and whose body is not
    [null].  When its result is not a list with a first element (no
    result, a result that is not a list, an empty list) the lookup fails
    with the unexpected-format error.  When the first element is there
    but is not an object, and is not [null], no source can be found in it
    and the lookup fails with the not-verified error. *)
Theorem malformed_replies
    (w : World) (a : jsstring) (r : Response.t) (data : JSValue) :
  fetch w (explorerUrl w a) = Returned r ->
  Response.ok r = true -> Response.json r = Returned data ->
  nullish data = false -> Envelope.statusFlagZero data = false ->
  match Envelope.first data with
  | None =>
      outcome (fetchContractFromEtherscan w a) = Threw Failure.UnexpectedFormat
  | Some (JObject _) => True
  | Some x =>
      nullish x = false ->
      outcome (fetchContractFromEtherscan w a) = Threw Failure.NotVerified
  end.
Proof.
  intros H1 H2 H3 Hn H0. rewrite (lookup_body w a r data H1 H2 H3).
  unfold Envelope.statusFlagZero, Envelope.first, Envelope.result in *.
  destruct data as [| |b|n|s|l|o]; try discriminate; try reflexivity.
  reduce.
  destruct (JS.lookup (js "status") o) as [status|]; reduce;
    [rewrite H0; reduce|].
  all: destruct (JS.lookup (js "result") o) as [[| |[|]|n|[|c s]|[|x l]|o1]|];
    reduce; try reflexivity.
  all: try (destruct (roundsToZero n); reflexivity).
  all: destruct x; try exact I; try discriminate; intros _; reflexivity.
Qed.

(** An explorer whose result is a string and not a list. *)
Lemma malformed_replies_witness :
  outcome (fetchContractFromEtherscan
             (Sample.exploring (Sample.reply Sample.flat)) [])
  = Threw Failure.UnexpectedFormat.
Proof.
  exact (malformed_replies
           (Sample.exploring (Sample.reply Sample.flat)) []
           (Response.make true 200 (Returned Sample.flat)) Sample.flat
           eq_refl eq_refl eq_refl eq_refl eq_refl).
Defined.

(** X16.  What the lookup returns, when it returns.  It made one
    request, to the URL of the address; the reply was a success with a
    JSON body, and the value returned is the source field of the first
    element of its result, as it is, whatever its type: never undefined
    and never the empty string. *)
Theorem lookup_postcondition (w : World) (a : jsstring) (v : JSValue) :
  outcome (fetchContractFromEtherscan w a) = Returned v ->
  trace (fetchContractFromEtherscan w a) = [Fetch (explorerUrl w a)]
  /\ v <> JUndefined /\ v <> JString []
  /\ exists r data,
       fetch w (explorerUrl w a) = Returned r
       /\ Response.ok r = true /\ Response.json r = Returned data
       /\ Envelope.SourceCode data = Some v.
Proof.
  intros Hv. split; [apply fetch_trace|].
  pose proof (lookup_table w a) as T. cbv zeta in T.
  destruct (fetch w (explorerUrl w a)) as [r|e] eqn:H1; [|congruence].
  destruct (Response.ok r) eqn:H2; [|congruence].
  destruct (Response.json r) as [data|e] eqn:H3; [|congruence].
  destruct T as (Tiff & _ & _ & Tok).
  destruct (Envelope.statusFlagZero data || Envelope.payloadMalformed data
            || Envelope.sourceEmpty data) eqn:Hf.
  - destruct (proj2 Tiff eq_refl) as [e He]. congruence.
  - destruct (Tok eq_refl) as (u & Hu & Hr).
    assert (u = v) as -> by congruence.
    apply orb_false_iff in Hf as [_ Hf]. unfold Envelope.sourceEmpty in Hf.
    rewrite Hu in Hf.
    repeat split.
    + intros ->. discriminate.
    + intros ->. discriminate.
    + exists r, data. auto.
Qed.

(** An explorer whose source field is a number. *)
Lemma lookup_postcondition_witness :
  Envelope.SourceCode Sample.numeric = Some (JNumber (mkNumber false 7 0)).
Proof.
  destruct (lookup_postcondition
              (Sample.exploring (Sample.reply Sample.numeric)) []
              (JNumber (mkNumber false 7 0)) eq_refl)
    as (_ & _ & _ & r & data & H1 & _ & H3 & Hv).
  injection H1 as <-. injection H3 as <-. exact Hv.
Defined.

(** X17.  The URL of the lookup tells the address: in one world, two
    addresses never give the same URL. *)
Theorem explorerUrl_injective (w : World) (a b : jsstring) :
  explorerUrl w a = explorerUrl w b -> a = b.
Proof.
  unfold explorerUrl. intros H.
  apply app_inv_head in H. apply app_inv_head in H.
  apply app_inv_tail in H. exact H.
Qed.

(** The address of the scenario. *)
Lemma explorerUrl_injective_witness :
  contractAddress Scenario.state = contractAddress Sample.stale.
Proof.
  exact (explorerUrl_injective Scenario.world
           (contractAddress Scenario.state) (contractAddress Sample.stale)
           eq_refl).
Defined.

(* ================================================================== *)
(** * The answers of the model *)
(* ================================================================== *)

Lemma trimStart_blank (s : jsstring) :
  forallb Str.isWhiteSpace s = true -> Str.trimStart s = [].
Proof.
  induction s as [|c s IH]; [reflexivity|].
  cbn [forallb Str.trimStart]. intros H.
  apply andb_true_iff in H as [-> H]. exact (IH H).
Qed.

Lemma trimStart_padding (blank s : jsstring) :
  forallb Str.isWhiteSpace blank = true ->
  Str.trimStart (blank ++ s) = Str.trimStart s.
Proof.
  induction blank as [|c blank IH]; [reflexivity|].
  cbn [forallb app Str.trimStart]. intros H.
  apply andb_true_iff in H as [-> H]. exact (IH H).
Qed.

(** Trimming the start leaves blanks or a string that starts with a
    character that is not blank. *)
Lemma trimStart_app (s blank : jsstring) :
  Str.trimStart (s ++ blank)
  = match Str.trimStart s with
    | [] => Str.trimStart blank
    | c :: rest => c :: rest ++ blank
    end.
Proof.
  induction s as [|c s IH]; cbn [app Str.trimStart].
  - destruct (Str.trimStart blank); reflexivity.
  - destruct (Str.isWhiteSpace c); [exact IH | reflexivity].
Qed.

Lemma forallb_rev {A} (f : A -> bool) (l : list A) :
  forallb f (rev l) = forallb f l.
Proof.
  induction l as [|x l IH]; [reflexivity|].
  cbn [rev forallb]. rewrite forallb_app, IH. cbn [forallb].
  rewrite andb_true_r. apply andb_comm.
Qed.

Lemma trim_padding (before t after : jsstring) :
  forallb Str.isWhiteSpace before = true ->
  forallb Str.isWhiteSpace after = true ->
  Str.trim (before ++ t ++ after) = Str.trim t.
Proof.
  intros Hb Ha. unfold Str.trim.
  rewrite (trimStart_padding before _ Hb), trimStart_app.
  destruct (Str.trimStart t) as [|c rest].
  - rewrite (trimStart_blank after Ha). reflexivity.
  - change (c :: rest ++ after) with ((c :: rest) ++ after).
    rewrite rev_app_distr, trimStart_padding; [reflexivity|].
    rewrite forallb_rev. exact Ha.
Qed.

(** X18.  Blanks around the answer of the model do not count: the
    validator makes of a padded text what it makes of the text, so an
    answer that is empty or all blanks is refused as invalid, with the
    raw text logged. *)
Theorem padding_ignored (w : World) (before t after : jsstring) :
  forallb Str.isWhiteSpace before = true ->
  forallb Str.isWhiteSpace after = true ->
  outcome (parseResponse w
             (GenerateContentResponse.make (Some (before ++ t ++ after))))
  = outcome (parseResponse w (GenerateContentResponse.make (Some t)))
  /\ parseResponse w (GenerateContentResponse.make (Some (before ++ after)))
     = ([ConsoleError (js "Failed to parse Gemini response:")
           (JString (before ++ after))],
        Threw Failure.InvalidResponse).
Proof.
  intros Hb Ha. rewrite !parseResponse_eq. unfold parsed, raw.
  cbn [GenerateContentResponse.text]. split.
  - rewrite (trim_padding before t after Hb Ha).
    destruct (JSON.parse (Str.trim t)); reflexivity.
  - replace (before ++ after) with (before ++ [] ++ after) at 1 by reflexivity.
    rewrite (trim_padding before [] after Hb Ha). reflexivity.
Qed.

(** An empty object between a tab and a line feed, and an answer of two
    blanks. *)
Lemma padding_ignored_witness :
  outcome (parseResponse Scenario.world
             (GenerateContentResponse.make (Some ([9] ++ js "{}" ++ LF))))
  = outcome (parseResponse Scenario.world
               (GenerateContentResponse.make (Some (js "{}"))))
  /\ parseResponse Scenario.world
       (GenerateContentResponse.make (Some ([9] ++ LF)))
     = ([ConsoleError (js "Failed to parse Gemini response:")
           (JString ([9] ++ LF))],
        Threw Failure.InvalidResponse).
Proof.
  exact (padding_ignored Scenario.world [9] (js "{}") LF eq_refl eq_refl).
Defined.

(** X19.  When the call to the model itself fails, the run shows what
    was thrown (its message, or the fallback of the handler when it is
    not an Error), logs nothing to the console and shows no report: the
    fixed message for an invalid analysis is for answers only. *)
Theorem model_failure_passed_on
    (w : World) (st : AppState) (code : JSValue) (p : option Whitepaper)
    (e : Thrown) :
  outcome (resolveSource w st) = Returned code ->
  outcome (whitepaperPayload st) = Returned p ->
  noApiKey w = false ->
  generateContent w (request w code p) = Threw e ->
  trace (handleAnalyze w st)
  = [SetIsLoading true; SetError None; SetResult None]
    ++ trace (resolveSource w st) ++ trace (whitepaperPayload st)
    ++ [SetLoadingMessage (js "Analyzing with Gemini AI...");
        GenerateContent (request w code p);
        SetError (Some (shown e));
        SetIsLoading false; SetLoadingMessage (js "")]
  /\ error (after st (trace (handleAnalyze w st))) = Some (shown e)
  /\ result (after st (trace (handleAnalyze w st))) = None.
Proof.
  intros Hc Hp Hkey Hg.
  assert (Ha : analyzeContractWithGemini w code p
               = ([GenerateContent (request w code p)], Threw e))
    by (rewrite analyze_eq, Hkey; cbv zeta; rewrite Hg; reflexivity).
  split.
  - rewrite (run_with_model w st code p Hc Hp), Ha. reflexivity.
  - rewrite final_state_eq, analysis_outcome, Hc, Hp, Ha. auto.
Qed.

(** The scenario with a model that rejects with a value that is not an
    Error. *)
Lemma model_failure_passed_on_witness :
  error (after Scenario.state
           (trace (handleAnalyze (Sample.modelling (Threw NotAnError))
                     Scenario.state)))
  = Some (js "An unknown error occurred.").
Proof.
  exact (proj1 (proj2 (model_failure_passed_on
                         (Sample.modelling (Threw NotAnError)) Scenario.state
                         (JString (js "contract A{}")) None NotAnError
                         eq_refl eq_refl eq_refl eq_refl))).
Defined.



(* ================================================================== *)
(** * The helpers of the report *)
(* ================================================================== *)

Lemma atLeast_integer (k : Z) (den : positive) (d : N) :
  (1 < den)%positive ->
  Report.atLeast k (1 # den) (mkNumber false d 0) = (k <=? Z.of_N d)%Z.
Proof.
  intros Hden. unfold Report.atLeast, Report.value.
  cbn [negative digits exp10 Qpower].
  apply eq_true_iff_eq. rewrite Qle_bool_iff, Z.leb_le.
  unfold Qle, Qminus, Qplus, Qopp, Qmult, inject_Z. cbn [Qnum Qden].
  rewrite !Pos2Z.inj_mul.
  assert (Hd : (2 <= Z.pos den)%Z) by lia.
  remember (Z.pos den) as z eqn:Hz. clear Hz Hden.
  generalize (Z.of_N d). intros n.
  split; intros H; nia.
Qed.

Lemma atLeast_monotone (k : Z) (halfGap : Q) (a b : JSNumber) :
  (Report.value a <= Report.value b)%Q ->
  Report.atLeast k halfGap a = true -> Report.atLeast k halfGap b = true.
Proof.
  unfold Report.atLeast. rewrite !Qle_bool_iff. intros Hab Ha.
  exact (Qle_trans _ _ _ Ha Hab).
Qed.

(** X21.  The colour of a score.  For a whole score the bands are: green
    from 80 on, yellow from 50 to 79, red below 50; nothing bounds the
    score, so one above 100 is green and a negative one is red.  And
    the colour follows the score: a score that is at least a green one
    is green, and one that is at most a red one is red. *)
Theorem score_colour_bands :
  (forall d : N,
     Report.getScoreColor (mkNumber false d 0)
     = if (80 <=? d)%N then js "text-green-400"
       else if (50 <=? d)%N then js "text-yellow-400"
       else js "text-red-400")
  /\ (forall d e,
        Report.getScoreColor (mkNumber true d e) = js "text-red-400")
  /\ (forall a b,
        (Report.value a <= Report.value b)%Q ->
        (Report.getScoreColor a = js "text-green-400" ->
         Report.getScoreColor b = js "text-green-400")
        /\ (Report.getScoreColor b = js "text-red-400" ->
            Report.getScoreColor a = js "text-red-400")).
Proof.
  split; [|split].
  - intros d. unfold Report.getScoreColor.
    rewrite !atLeast_integer by reflexivity.
    destruct (N.leb_spec 80 d), (Z.leb_spec 80 (Z.of_N d)); try lia;
      destruct (N.leb_spec 50 d), (Z.leb_spec 50 (Z.of_N d)); try lia;
      reflexivity.
  - intros d e. unfold Report.getScoreColor, Report.atLeast.
    assert (Hneg : (Report.value (mkNumber true d e) <= 0)%Q).
    { unfold Report.value. cbn [negative digits exp10].
      assert (H10 : (0 <= Qpower (10 # 1) e)%Q)
        by (apply Qpower_0_le; discriminate).
      assert (Hd' : (- inject_Z (Z.of_N d) <= 0)%Q)
        by (unfold Qle, Qopp, inject_Z; cbn [Qnum Qden]; lia).
      apply Qle_trans with (0 * Qpower (10 # 1) e)%Q;
        [apply Qmult_le_compat_r; assumption
        | rewrite Qmult_0_l; apply Qle_refl]. }
    assert (H80 : Qle_bool (inject_Z 80 - (1 # 140737488355328))
                    (Report.value (mkNumber true d e)) = false).
    { apply not_true_is_false. rewrite Qle_bool_iff. intros H.
      pose proof (Qle_trans _ _ _ H Hneg) as H0. revert H0.
      unfold Qle. cbn. lia. }
    assert (H50 : Qle_bool (inject_Z 50 - (1 # 281474976710656))
                    (Report.value (mkNumber true d e)) = false).
    { apply not_true_is_false. rewrite Qle_bool_iff. intros H.
      pose proof (Qle_trans _ _ _ H Hneg) as H0. revert H0.
      unfold Qle. cbn. lia. }
    rewrite H80, H50. reflexivity.
  - intros a b Hab. unfold Report.getScoreColor.
    pose proof (atLeast_monotone 80 (1 # 140737488355328) a b Hab) as M80.
    pose proof (atLeast_monotone 50 (1 # 281474976710656) a b Hab) as M50.
    destruct (Report.atLeast 80 _ a), (Report.atLeast 80 _ b),
             (Report.atLeast 50 _ a), (Report.atLeast 50 _ b);
      try (discriminate (M80 eq_refl)); try (discriminate (M50 eq_refl));
      split; intros H; try reflexivity; vm_compute in H; discriminate H.
Qed.

Lemma severity_default (s : jsstring) :
  Report.getSeverityClass s = js "bg-gray-700/50 text-gray-300 border-gray-600"
  <-> ~ In (Str.toLowerCase s)
           [js "critical"; js "high"; js "medium"; js "low"].
Proof.
  unfold Report.getSeverityClass. cbv zeta.
  destruct (Str.eqb _ (js "critical")) eqn:H1;
    [apply Str_eqb_eq in H1; rewrite H1; split;
     [intros H; vm_compute in H; discriminate H
     | intros H; elim H; left; reflexivity]|].
  destruct (Str.eqb _ (js "high")) eqn:H2;
    [apply Str_eqb_eq in H2; rewrite H2; split;
     [intros H; vm_compute in H; discriminate H
     | intros H; elim H; right; left; reflexivity]|].
  destruct (Str.eqb _ (js "medium")) eqn:H3;
    [apply Str_eqb_eq in H3; rewrite H3; split;
     [intros H; vm_compute in H; discriminate H
     | intros H; elim H; right; right; left; reflexivity]|].
  destruct (Str.eqb _ (js "low")) eqn:H4;
    [apply Str_eqb_eq in H4; rewrite H4; split;
     [intros H; vm_compute in H; discriminate H
     | intros H; elim H; right; right; right; left; reflexivity]|].
  split; [|reflexivity]. intros _ [H|[H|[H|[H|[]]]]]; symmetry in H;
    apply Str_eqb_eq in H; congruence.
Qed.

(** X22.  The class of a severity is chosen by its lower-case form: it
    does not change when the severity is put in lower case, so the four
    levels are told whatever their capitals; and it is the grey default
    exactly when the lower-case form is none of critical, high, medium
    and low, as with a level the prompt does not name or one with a
    blank after it. *)
Theorem severity_class_by_lower_case (severity : jsstring) :
  Report.getSeverityClass (Str.toLowerCase severity)
  = Report.getSeverityClass severity
  /\ (Report.getSeverityClass severity
      = js "bg-gray-700/50 text-gray-300 border-gray-600"
      <-> ~ In (Str.toLowerCase severity)
               [js "critical"; js "high"; js "medium"; js "low"])
  /\ Report.getSeverityClass (js "CRITICAL")
     = js "bg-red-900/50 text-red-300 border-red-500"
  /\ Report.getSeverityClass (js "Informational")
     = Report.getSeverityClass (js "low ").
Proof.
  split; [|split; [apply severity_default | split; reflexivity]].
  unfold Report.getSeverityClass. rewrite toLowerCase_idempotent.
  reflexivity.
Qed.

(** X23.  The five severities of the type of a vulnerability and the
    four classes: each of Critical, High, Medium and Low has a class of
    its own colour, and Informational, for which the helper has no
    case, is shown in the grey of the default. *)
Theorem severity_levels_of_the_type (severity : jsstring) :
  Types.isSeverity (JString severity) = true ->
  (Report.getSeverityClass severity
   = js "bg-gray-700/50 text-gray-300 border-gray-600"
   <-> severity = js "Informational").
Proof.
  unfold Types.isSeverity. cbn [existsb JS.isString].
  rewrite !orb_true_iff, !Str_eqb_eq.
  intros [->|[->|[->|[->|[->|H]]]]]; [..|discriminate H];
    vm_compute; split; intros H; try reflexivity; discriminate H.
Qed.

(** The level the helper has no case for. *)
Lemma severity_levels_of_the_type_witness :
  Report.getSeverityClass (js "Informational")
  = js "bg-gray-700/50 text-gray-300 border-gray-600".
Proof.
  exact (proj2 (severity_levels_of_the_type (js "Informational") eq_refl)
           eq_refl).
Defined.

(* ================================================================== *)
(** * The page between runs *)
(* ================================================================== *)




